(** * url2mda: the Browser durable object, its router, cache and MAGI conversion

    A shallow embedding of the TypeScript worker.  JavaScript strings are
    sequences of UTF-16 code units, so a string is a [list N]; every
    effect of the worker (key-value cache, durable storage, alarm, the
    puppeteer service, the rate limiter, page fetches) is threaded
    explicitly through a state record, and everything the platform decides
    (launch outcomes, page contents, clock values) is read from an oracle
    record indexed by the number of effects performed so far.

    Of the two variants of [index.ts] in the repository the one modelled
    is the one without the [htmlDetails] parameter: it handles [nocache]
    and hands crawls to [handlers/crawl-subpages.ts].  Three things are
    kept simple: a cache entry does not expire during a run, a callback
    given to [Promise.all] runs as one step (the completion order of the
    callbacks is arbitrary), and the key-value cache itself never
    rejects. *)

From Stdlib Require Import ZArith NArith List Strings.String Strings.Ascii.
From Stdlib Require Import Lia Bool DecimalString Permutation.
From stdpp Require Import base option list gmap sorting.

Local Open Scope N_scope.

(** ** JavaScript strings *)

Module JS.

(** A code unit of a JavaScript string. *)
Definition char := N.

Definition hexDigit (a : ascii) : N :=
  let c := N_of_ascii a in
  if (48 <=? c) && (c <=? 57) then c - 48
  else if (65 <=? c) && (c <=? 70) then c - 55
  else if (97 <=? c) && (c <=? 102) then c - 87
  else 0.

(** A string literal of the source, as code units.  The escapes of the
    source are kept: [\n], [\t], [\\] and [\xHH] (so [\x22] is the
    double quote and [\x60] the backtick). *)
Fixpoint unescape (l : list ascii) : list N :=
  match l with
  | [] => []
  | a :: tl =>
      if (N_of_ascii a =? 92)
      then match tl with
           | b :: tl' =>
               if (N_of_ascii b =? 110) then 10 :: unescape tl'
               else if (N_of_ascii b =? 116) then 9 :: unescape tl'
               else if (N_of_ascii b =? 120) then
                 match tl' with
                 | h1 :: h2 :: tl'' => (16 * hexDigit h1 + hexDigit h2) :: unescape tl''
                 | _ => N_of_ascii b :: unescape tl'
                 end
               else N_of_ascii b :: unescape tl'
           | [] => [92]
           end
      else N_of_ascii a :: unescape tl
  end.

Definition js (s : string) : list N := unescape (list_ascii_of_string s).

(** Decimal rendering of a number inside a template literal. *)
Definition ofNat (n : nat) : list N := js (NilEmpty.string_of_uint (Nat.to_uint n)).
Definition ofN (n : N) : list N := js (NilEmpty.string_of_uint (N.to_uint n)).

(** [WhiteSpace] and [LineTerminator] of ECMAScript: what [\s] and
    [trim] recognise. *)
Definition isLineTerminator (c : N) : bool :=
  (c =? 10) || (c =? 13) || (c =? 0x2028) || (c =? 0x2029).

Definition isWhiteSpace (c : N) : bool :=
  (c =? 9) || (c =? 10) || (c =? 11) || (c =? 12) || (c =? 13) || (c =? 32)
  || (c =? 0xA0) || (c =? 0x1680) || ((0x2000 <=? c) && (c <=? 0x200A))
  || (c =? 0x2028) || (c =? 0x2029) || (c =? 0x202F) || (c =? 0x205F)
  || (c =? 0x3000) || (c =? 0xFEFF).

Definition isDigit (c : N) : bool := (48 <=? c) && (c <=? 57).
Definition isUpper (c : N) : bool := (65 <=? c) && (c <=? 90).
Definition isLower (c : N) : bool := (97 <=? c) && (c <=? 122).
Definition isWordChar (c : N) : bool :=
  isUpper c || isLower c || isDigit c || (c =? 95).

(** [toLowerCase], exact on every code unit whose lower case is an ASCII
    letter (the Kelvin sign is the only one outside ASCII). *)
Definition toLower (c : N) : N :=
  if isUpper c then c + 32 else if c =? 0x212A then 107 else c.
Definition toLowerCase (s : list N) : list N := List.map toLower s.

Fixpoint eqb (a b : list N) : bool :=
  match a, b with
  | [], [] => true
  | x :: a', y :: b' => (x =? y) && eqb a' b'
  | _, _ => false
  end.

(** [s.startsWith(p)] *)
Fixpoint startsWith (s p : list N) {struct p} : bool :=
  match p with
  | [] => true
  | a :: p' =>
      match s with
      | [] => false
      | b :: s' => (a =? b) && startsWith s' p'
      end
  end.

(** [s.includes(sub)] *)
Fixpoint includes (s sub : list N) {struct s} : bool :=
  startsWith s sub ||
  match s with
  | [] => false
  | _ :: s' => includes s' sub
  end.

(** [s.split(sep)] for a non-empty string separator: [skip] counts the
    code units of a separator occurrence still to be dropped, [cur] is
    the current piece, reversed. *)
Fixpoint splitAux (sep : list N) (skip : nat) (cur s : list N) : list (list N) :=
  match s with
  | [] => [rev cur]
  | c :: s' =>
      match skip with
      | S k => splitAux sep k cur s'
      | O =>
          if startsWith s sep
          then rev cur :: splitAux sep (length sep - 1) [] s'
          else splitAux sep 0 (c :: cur) s'
      end
  end.

Definition split (s sep : list N) : list (list N) := splitAux sep 0 [] s.

(** [s.split(/\s+/)]: the pieces between maximal runs of white space. *)
Fixpoint splitWsAux (cur : list N) (inWs : bool) (s : list N) : list (list N) :=
  match s with
  | [] => [rev cur]
  | c :: s' =>
      if isWhiteSpace c
      then (if inWs then splitWsAux cur true s'
            else rev cur :: splitWsAux [] true s')
      else splitWsAux (c :: cur) false s'
  end.

Definition splitWs (s : list N) : list (list N) := splitWsAux [] false s.

(** [s.replace(pat, rep)] with a string pattern: the first occurrence. *)
Fixpoint replaceFirst (s pat rep : list N) {struct s} : list N :=
  if startsWith s pat then rep ++ drop (length pat) s
  else match s with
       | [] => []
       | c :: s' => c :: replaceFirst s' pat rep
       end.

(** [s.replace(/c/g, rep)] for a single code unit [c]. *)
Definition replaceAllChar (s : list N) (c : N) (rep : list N) : list N :=
  flat_map (fun x => if x =? c then rep else [x]) s.

Fixpoint trimStart (s : list N) : list N :=
  match s with
  | c :: s' => if isWhiteSpace c then trimStart s' else s
  | [] => []
  end.

Definition trim (s : list N) : list N := rev (trimStart (rev (trimStart s))).

(** [parts.join(sep)] *)
Fixpoint join (sep : list N) (parts : list (list N)) : list N :=
  match parts with
  | [] => []
  | [p] => p
  | p :: ps => p ++ sep ++ join sep ps
  end.

(** A JavaScript [Set] of strings keeps insertion order. *)
Definition setAdd (x : list N) (s : list (list N)) : list (list N) :=
  if existsb (eqb x) s then s else s ++ [x].

End JS.

Arguments JS.js s%_string : simpl never.
Abbreviation js := JS.js.

(** ** Regular expressions

    A backtracking matcher with the priorities of ECMAScript: choices
    left to right, greedy or lazy iteration, iterations that consume
    nothing rejected. *)

Module Re.

Inductive re : Type :=
| Empty
| Char (p : N -> bool)
| Seq (a b : re)
| Alt (a b : re)
| Star (greedy : bool) (a : re)
| Group (i : nat) (a : re)
| Bol (multiline : bool)
| Eol (multiline : bool)
| WordB.

Record mstate : Type := mkState {
  pos : nat;                       (* index of the next code unit *)
  prev : option N;                 (* code unit before [pos] *)
  rest : list N;                   (* input from [pos] on *)
  caps : list (nat * (nat * nat))  (* group, start, end *)
}.

Definition advance (st : mstate) (c : N) (tl : list N) : mstate :=
  mkState (S (pos st)) (Some c) tl (caps st).

Definition atBol (m : bool) (st : mstate) : bool :=
  match prev st with
  | None => true
  | Some c => m && JS.isLineTerminator c
  end.

Definition atEol (m : bool) (st : mstate) : bool :=
  match rest st with
  | [] => true
  | c :: _ => m && JS.isLineTerminator c
  end.

Definition atWordB (st : mstate) : bool :=
  xorb (match prev st with Some c => JS.isWordChar c | None => false end)
       (match rest st with c :: _ => JS.isWordChar c | [] => false end).

Fixpoint go {R : Type} (r : re) (st : mstate) (k : mstate -> option R) : option R :=
  match r with
  | Empty => k st
  | Char p =>
      match rest st with
      | c :: tl => if p c then k (advance st c tl) else None
      | [] => None
      end
  | Seq a b => go a st (fun st' => go b st' k)
  | Alt a b =>
      match go a st k with
      | Some x => Some x
      | None => go b st k
      end
  | Star greedy a =>
      (fix loop (n : nat) (st : mstate) {struct n} : option R :=
         match n with
         | O => k st
         | S n' =>
             let iter :=
               go a st (fun st' =>
                          if (pos st <? pos st')%nat then loop n' st' else None) in
             if greedy
             then match iter with Some x => Some x | None => k st end
             else match k st with Some x => Some x | None => iter end
         end) (length (rest st)) st
  | Group i a =>
      go a st (fun st' =>
                 k (mkState (pos st') (prev st') (rest st')
                            ((i, (pos st, pos st')) :: caps st')))
  | Bol m => if atBol m st then k st else None
  | Eol m => if atEol m st then k st else None
  | WordB => if atWordB st then k st else None
  end.

(** The leftmost match at or after the current position: its start and
    the state at its end. *)
Fixpoint search (r : re) (p : nat) (pv : option N) (s : list N) : option (nat * mstate) :=
  match go r (mkState p pv s []) Some with
  | Some e => Some (p, e)
  | None =>
      match s with
      | [] => None
      | c :: tl => search r (S p) (Some c) tl
      end
  end.

(** A match: the matched text and the text of each group. *)
Record result : Type := mkResult { whole : list N; groups : list (nat * list N) }.

Definition substring (s : list N) (a b : nat) : list N := take (b - a) (drop a s).

Definition capture (s : list N) (st : mstate) (i : nat) : option (list N) :=
  match List.find (fun c => Nat.eqb (fst c) i) (caps st) with
  | Some (_, (a, b)) => Some (substring s a b)
  | None => None
  end.

Definition toResult (s : list N) (m : nat * mstate) : result :=
  mkResult (substring s (fst m) (pos (snd m)))
           (List.map (fun c => (fst c, substring s (fst (snd c)) (snd (snd c))))
                     (caps (snd m))).

Definition group (m : result) (i : nat) : option (list N) :=
  match List.find (fun c => Nat.eqb (fst c) i) (groups m) with
  | Some (_, t) => Some t
  | None => None
  end.

(** [s.match(r)] without the global flag, [r.test(s)]. *)
Definition exec (r : re) (s : list N) : option result :=
  match search r 0 None s with
  | Some m => Some (toResult s m)
  | None => None
  end.

Definition test (r : re) (s : list N) : bool :=
  match search r 0 None s with Some _ => true | None => false end.

(** [s.match(r)] with the global flag, [s.matchAll(r)]: successive
    leftmost matches; an empty match moves on by one code unit. *)
Fixpoint allFrom (fuel : nat) (r : re) (whole : list N)
         (p : nat) (pv : option N) (s : list N) : list result :=
  match fuel with
  | O => []
  | S fuel' =>
      match search r p pv s with
      | None => []
      | Some (a, e) =>
          toResult whole (a, e) ::
          (if (a <? pos e)%nat
           then allFrom fuel' r whole (pos e) (prev e) (rest e)
           else match rest e with
                | [] => []
                | c :: tl => allFrom fuel' r whole (S (pos e)) (Some c) tl
                end)
      end
  end.

Definition matchAll (r : re) (s : list N) : list result :=
  allFrom (S (length s)) r s 0 None s.

(** Pattern syntax. *)
Definition plus (a : re) : re := Seq a (Star true a).
Definition opt (a : re) : re := Alt a Empty.
Definition chr (c : N) : re := Char (N.eqb c).
Definition chri (c : N) : re := Char (fun x => JS.toLower c =? (if JS.isUpper x then x + 32 else x)).
Definition dot : re := Char (fun c => negb (JS.isLineTerminator c)).
Definition ws : re := Char JS.isWhiteSpace.
Definition digit : re := Char JS.isDigit.
Definition upper : re := Char JS.isUpper.
Definition lower : re := Char JS.isLower.
Definition seqs (l : list re) : re := fold_right Seq Empty l.
Definition alts (l : list re) : re :=
  match l with
  | [] => Empty
  | a :: l' => fold_left Alt l' a
  end.
(** A literal, case sensitive and under the [i] flag. *)
Definition lit (s : string) : re := seqs (List.map chr (js s)).
Definition liti (s : string) : re := seqs (List.map chri (js s)).
(** [\bw\b] under the [i] flag. *)
Definition word (a : re) : re := seqs [WordB; a; WordB].

End Re.

Arguments Re.lit s%_string.
Arguments Re.liti s%_string.


(** ** Data of the worker *)

(** A connection to a rendering-engine instance ([PuppeteerBrowser]) and
    the identifier of a remote session. *)
Definition Handle := nat.
Definition SessionId := list N.

(** A promise settles with a value or rejects with a message
    ([error instanceof Error ? error.message : String(error)]). *)
Inductive Outcome (A : Type) : Type :=
| Ok (a : A)
| Throw (message : list N).
Arguments Ok {A} a.
Arguments Throw {A} message.

(** [{ url; md; error?; status?; errorDetails? }] *)
Record Result : Type := mkResult {
  r_url : list N;
  r_md : list N;
  r_error : option bool;
  r_status : option N;
  r_errorDetails : option (list N)
}.

(** [!result.error] is [negb (isError result)]. *)
Definition isError (r : Result) : bool :=
  match r_error r with Some true => true | _ => false end.

Definition withMd (r : Result) (m : list N) : Result :=
  mkResult (r_url r) m (r_error r) (r_status r) (r_errorDetails r).

(** The branches of the router in [getWebsiteMarkdown]. *)
Inductive Route : Type :=
| RYouTube
| RTwitterProfile
| RTwitterTweet
| RTwitterFallback
| RReddit
| RDefault.


(** A post of a Reddit listing ([post.data]); [p_posted] is the rendering
    of [new Date(created_utc * 1000).toLocaleString()]. *)
Record Post : Type := mkPost {
  p_title : list N;
  p_author : list N;
  p_score : N;
  p_num_comments : N;
  p_posted : list N;
  p_selftext : list N;
  p_url : list N;
  p_permalink : list N
}.

(** The JSON document of a listing response: [error] and [message] (absent
    or falsy is [None]) and [data.children], each with its [data]. *)
Record Listing : Type := mkListing {
  l_error : option (list N);
  l_message : option (list N);
  l_children : list (option Post)
}.

(** An HTTP response of the Reddit API: status, the
    [x-ratelimit-remaining] header, the body text, and what [JSON.parse]
    makes of it ([None] when it throws). *)
Record HttpResponse : Type := mkHttp {
  h_status : N;
  h_remaining : option (list N);
  h_text : list N;
  h_json : option Listing
}.

(** The response of the OAuth token endpoint; [t_json] is the
    [access_token] of the parsed body (empty when missing). *)
Record TokenResponse : Type := mkToken {
  t_status : N;
  t_text : list N;
  t_json : option (list N)
}.

Definition httpOk (status : N) : bool := (200 <=? status) && (status <=? 299).

(** What one call of [convertToMagiFormat] reads from its environment:
    [uuidv4()], [new Date().toISOString()] and the two [Date.now()]. *)
Record MagiClock : Type := mkClock {
  uuid : list N;
  isoNow : list N;
  summaryNow : N;
  entityNow : N
}.

(** Everything visible from outside the worker, in order. *)
Inductive Event : Type :=
| EvProbe (h : Handle) (alive : bool)
| EvLaunch (res : option Handle)
| EvSessions (res : option (list SessionId))
| EvCloseSession (sid : SessionId) (ok : bool)
| EvBrowserClose (h : Handle) (ok : bool)
| EvLimit (key : list N) (success : bool)
| EvCacheGet (key : list N)
| EvCacheDelete (key : list N)
| EvCachePut (key value : list N) (ttl : N)
| EvPageFetch (url : list N)
| EvLlm (input : list N)
| EvHandler (r : Route) (url : list N)
| EvHttp (endpoint : list N)
| EvLinks (url : list N)
| EvSetAlarm (time : Z) (ok : bool)
| EvStoragePut (value : Z) (ok : bool).

(** The bindings of [Env], the constants of [./constants] (that module is
    not among the sources, so its two constants are fields here) and the
    behaviour of every collaborator.  A collaborator is asked with the
    number of events so far, so two calls may answer differently. *)
Record Env : Type := mkEnv {
  KEEP_BROWSER_ALIVE_IN_SECONDS : Z;
  TEN_SECONDS : Z;
  BACKEND_SECURITY_TOKEN : list N;
  REDDIT_CLIENT_ID : list N;
  REDDIT_CLIENT_SECRET : list N;
  dateNow : nat -> Z;
  (* puppeteer *)
  launch : nat -> option Handle;
  version : nat -> Handle -> bool;
  sessions : nat -> option (list SessionId);
  connectAndClose : nat -> SessionId -> bool;
  closeBrowser : nat -> Handle -> bool;
  (* durable storage: [false] when the call rejects *)
  setAlarmOk : nat -> bool;
  storagePutOk : nat -> bool;
  (* RATELIMITER.limit *)
  limit : nat -> list N -> bool;
  (* the URL class: [new URL(u).searchParams.has('nocache')], and [u]
     with [searchParams.set('nocache', 'true')] serialised again; [None]
     when the constructor throws *)
  urlHasNocache : list N -> option bool;
  urlSetNocache : list N -> option (list N);
  (* strategies and collaborators that are not modelled further; the two
     social strategies answer [{ url, md, error? }] for the [url] they
     were given, so they are asked for [md] and [error] *)
  handleDefaultPage : nat -> list N -> Outcome (list N);
  aiRun : nat -> list N -> Outcome (list N);
  getYouTubeMetadata : nat -> list N -> Outcome (list N);
  handleTwitterProfilePage : nat -> list N -> Outcome (list N * option bool);
  handleTwitterTweetPage : nat -> list N -> Outcome (list N * option bool);
  redditPublic : nat -> list N -> Outcome HttpResponse;
  redditToken : nat -> Outcome TokenResponse;
  redditOAuth : nat -> list N -> list N -> Outcome HttpResponse;
  (* [page.goto] and [extractLinks] of a crawl *)
  pageLinks : nat -> list N -> Outcome (list (list N));
  (* completion rank of the i-th promise given to [Promise.all] *)
  finishRank : nat -> nat;
  magiClock : nat -> MagiClock
}.

(** What a request can change besides the durable storage: the browser
    field of the object, the [MDA_CACHE] namespace (value and
    [expirationTtl]) and the trace. *)
Record World : Type := mkWorld {
  browser : option Handle;
  cache : gmap (list N) (list N * N);
  trace : list Event
}.

(** The durable object: its counter field, the stored counter, the
    scheduled alarm, and the rest. *)
Record State : Type := mkSt {
  keptAliveInSeconds : Z;
  storedKeptAlive : option Z;
  alarmAt : option Z;
  world : World
}.

(** The fields of the object set per request: [this.token],
    [this.llmFilter], and the [cf-connecting-ip] header of
    [this.request]. *)
Record Ctx : Type := mkCtx {
  token : list N;
  llmFilter : bool;
  ip : option (list N)
}.

(** ** Effects *)

Definition emit (e : Event) (w : World) : World :=
  mkWorld (browser w) (cache w) (trace w ++ [e]).

Definition setBrowser (b : option Handle) (w : World) : World :=
  mkWorld b (cache w) (trace w).

Definition setCache (c : gmap (list N) (list N * N)) (w : World) : World :=
  mkWorld (browser w) c (trace w).

Definition now (w : World) : nat := length (trace w).

Definition M (A : Type) : Type := World -> Outcome A * World.

Definition ret {A : Type} (a : A) : M A := fun w => (Ok a, w).

Definition bind {A B : Type} (m : M A) (f : A -> M B) : M B :=
  fun w =>
    match m w with
    | (Ok a, w') => f a w'
    | (Throw e, w') => (Throw e, w')
    end.

Definition throw {A : Type} (message : list N) : M A := fun w => (Throw message, w).

Definition tryCatch {A : Type} (m : M A) (handler : list N -> M A) : M A :=
  fun w =>
    match m w with
    | (Ok a, w') => (Ok a, w')
    | (Throw e, w') => handler e w'
    end.

Notation "'let*' x ':=' m 'in' k" := (bind m (fun x => k))
  (at level 10, x name, m at level 100, k at level 200).
Notation "'do*' m 'in' k" := (bind m (fun _ => k))
  (at level 10, m at level 100, k at level 200).

(** An oracle answer, recorded in the trace. *)
Definition ask {A : Type} (f : nat -> Outcome A) (e : Event) : M A :=
  fun w => (f (now w), emit e w).

(** [MDA_CACHE.get], [put] with [expirationTtl], [delete]. *)
Definition cacheGet (key : list N) : M (option (list N)) :=
  fun w => (Ok (fst <$> cache w !! key), emit (EvCacheGet key) w).

Definition cachePut (key value : list N) (ttl : N) : M unit :=
  fun w => (Ok tt, emit (EvCachePut key value ttl) (setCache (<[key := (value, ttl)]> (cache w)) w)).

Definition cacheDelete (key : list N) : M unit :=
  fun w => (Ok tt, emit (EvCacheDelete key) (setCache (delete key (cache w)) w)).

(** Truthiness of a string, and of the result of [get]. *)
Definition truthy (s : list N) : bool :=
  match s with [] => false | _ => true end.

Definition truthyOpt (o : option (list N)) : bool :=
  match o with Some s => truthy s | None => false end.

(** ** Resource handle manager: [ensureBrowser] *)

(** [isBrowserConnected]: [version()] as a probe; an exception means
    that the handle is not connected. *)
Definition isBrowserConnected (env : Env) (w : World) : bool * World :=
  match browser w with
  | None => (false, w)
  | Some h =>
      let alive := version env (now w) h in
      (alive, emit (EvProbe h alive) w)
  end.

(** The clean-up between two launch attempts: every listed session gets
    its [connect] and [close]; a failure is logged and the loop goes on;
    a failure of the listing itself is caught by the outer [try]. *)
Definition closeSessions (env : Env) (ss : list SessionId) (w : World) : World :=
  fold_left (fun w sid => emit (EvCloseSession sid (connectAndClose env (now w) sid)) w) ss w.

Definition cleanupSessions (env : Env) (w : World) : World :=
  match sessions env (now w) with
  | None => emit (EvSessions None) w
  | Some ss => closeSessions env ss (emit (EvSessions (Some ss)) w)
  end.

(** The [while (retries > 0)] loop. *)
Fixpoint ensureLoop (env : Env) (retries : nat) (w : World) : bool * World :=
  match retries with
  | O => (false, w)
  | S remaining =>
      let '(connected, w1) := isBrowserConnected env w in
      if negb connected then
        match launch env (now w1) with
        | Some h => (true, setBrowser (Some h) (emit (EvLaunch (Some h)) w1))
        | None =>
            let w2 := emit (EvLaunch None) w1 in
            match remaining with
            | O => (false, w2)
            | S _ => ensureLoop env remaining (cleanupSessions env w2)
            end
        end
      else (true, w1)
  end.

Definition ensureBrowser (env : Env) (w : World) : bool * World :=
  ensureLoop env 3 w.

(** ** Extraction router *)

(** [/^[0-9]+$/.test(lastPart?.split('?')[0] ?? '')] for the last piece
    of [url.split('/')]. *)
Definition allDigits (s : list N) : bool :=
  truthy s && forallb JS.isDigit s.

Definition urlParts (url : list N) : list (list N) := JS.split url (js "/").

Definition isLikelyStatus (url : list N) : bool :=
  allDigits (List.hd [] (JS.split (List.last (urlParts url) []) (js "?"))).

Definition isVideoUrl (url : list N) : bool :=
  JS.includes url (js "youtube.com/watch") || JS.includes url (js "youtu.be/").

Definition isSocialUrl (url : list N) : bool :=
  JS.startsWith url (js "https://x.com") || JS.startsWith url (js "https://twitter.com").

Definition isForumUrl (url : list N) : bool := JS.includes url (js "reddit.com/r/").

Definition route (url : list N) : Route :=
  if isVideoUrl url then RYouTube
  else if isSocialUrl url then
    if negb (isLikelyStatus url) && (3 <? length (urlParts url))%nat then RTwitterProfile
    else if isLikelyStatus url then RTwitterTweet
    else RTwitterFallback
  else if isForumUrl url then RReddit
  else RDefault.


(** ** Forum listing strategy: [handlers/reddit.ts] *)

(** [a || b] on strings. *)
Definition orElse (a b : list N) : list N := if truthy a then a else b.

Definition formatPost (p : Post) : list N :=
  js "## " ++ orElse (p_title p) (js "Untitled post") ++ js "\n\n"
  ++ js "- **Author:** u/" ++ orElse (p_author p) (js "unknown") ++ js "\n"
  ++ js "- **Score:** " ++ JS.ofN (p_score p) ++ js "\n"
  ++ js "- **Comments:** " ++ JS.ofN (p_num_comments p) ++ js "\n"
  ++ js "- **Posted:** " ++ p_posted p ++ js "\n\n"
  ++ (if truthy (p_selftext p)
      then (if (500 <? length (p_selftext p))%nat
            then take 500 (p_selftext p) ++ js "..."
            else p_selftext p) ++ js "\n\n"
      else [])
  ++ (if truthy (p_url p) && negb (JS.includes (p_url p) (js "reddit.com"))
      then js "**Link:** [" ++ p_url p ++ js "](" ++ p_url p ++ js ")\n\n"
      else [])
  ++ js "**Reddit link:** [View full post](https://reddit.com" ++ p_permalink p ++ js ")\n\n"
  ++ js "---\n\n".

Definition formatRedditData (data : Listing) (subreddit originalUrl : list N) : list N :=
  match l_children data with
  | [] =>
      js "# Subreddit: r/" ++ subreddit
      ++ js "\n\nNo posts found or could not be fetched from this subreddit."
  | children =>
      js "# Subreddit: r/" ++ subreddit ++ js "\n\n"
      ++ concat (List.map (fun c => match c with Some p => formatPost p | None => [] end) children)
      ++ js "\nSource: [" ++ originalUrl ++ js "](" ++ originalUrl ++ js ")"
  end.

(** The tail shared by both API paths once a listing was parsed: an API
    error message, or the formatted listing, cached when longer than 100. *)
Definition listingMarkdown (data : Listing) (subreddit url cacheKey : list N) : M (list N) :=
  match l_error data with
  | Some e =>
      ret (js "Reddit API error: " ++ match l_message data with Some m => m | None => e end)
  | None =>
      let md := formatRedditData data subreddit url in
      do* (if truthy md && (100 <? length md)%nat
           then cachePut cacheKey md 3600 else ret tt) in
      ret md
  end.

(** [fetchRedditPublicApi]: the markdown and [isRateLimited]. *)
Definition fetchRedditPublicApi (env : Env) (subreddit url cacheKey : list N)
  : M (list N * bool) :=
  tryCatch
    (let* resp := ask (fun n => redditPublic env n subreddit)
                      (EvHttp (js "https://www.reddit.com/r/" ++ subreddit ++ js "/hot.json?limit=5")) in
     if (h_status resp =? 429)
        || match h_remaining resp with Some r => JS.eqb r (js "0") | None => false end
     then ret ([], true)
     else if negb (httpOk (h_status resp)) then
       if JS.includes (h_text resp) (js "rate limit") || JS.includes (h_text resp) (js "ratelimit")
       then ret ([], true)
       else ret (js "Failed to fetch from Reddit Public API: " ++ JS.ofN (h_status resp), false)
     else
       match h_json resp with
       | None => ret (js "Error parsing Reddit Public API response", false)
       | Some data =>
           let* md := listingMarkdown data subreddit url cacheKey in
           ret (md, false)
       end)
    (fun message => ret (js "Error fetching Reddit public content: " ++ message, false)).

Definition tokenCacheKey : list N := js "Reddit:OAuthToken".

(** The first half of [fetchRedditAuthenticatedApi]: the cached token or a
    new one; [inl] is an early return of the whole function. *)
Definition redditAccessToken (env : Env) : M (list N + list N) :=
  let* cached := cacheGet tokenCacheKey in
  if truthyOpt cached then ret (inr (default [] cached))
  else
    let* tr := ask (redditToken env) (EvHttp (js "https://www.reddit.com/api/v1/access_token")) in
    if negb (httpOk (t_status tr)) then
      do* cacheDelete tokenCacheKey in
      ret (inl (js "Failed to authenticate with Reddit: " ++ JS.ofN (t_status tr)))
    else
      match t_json tr with
      | None =>
          ret (inl (js "Failed to parse Reddit authentication response: " ++ take 100 (t_text tr)))
      | Some tk =>
          if negb (truthy tk)
          then ret (inl (js "Reddit did not provide an access token: " ++ take 100 (t_text tr)))
          else do* cachePut tokenCacheKey tk 3000 in ret (inr tk)
      end.

Definition fetchRedditAuthenticatedApi (env : Env) (subreddit url cacheKey : list N)
  : M (list N) :=
  tryCatch
    (if negb (truthy (REDDIT_CLIENT_ID env)) || negb (truthy (REDDIT_CLIENT_SECRET env))
     then ret (js "Reddit API credentials not configured.")
     else
       let* t := redditAccessToken env in
       match t with
       | inl early => ret early
       | inr tk =>
           let* resp := ask (fun n => redditOAuth env n subreddit tk)
                            (EvHttp (js "https://oauth.reddit.com/r/" ++ subreddit ++ js "/hot?limit=5")) in
           if negb (httpOk (h_status resp)) then
             if h_status resp =? 401 then
               do* cacheDelete tokenCacheKey in
               ret (js "Reddit authentication failed. Token may have expired.")
             else
               ret (js "Failed to fetch from Reddit API (authenticated): "
                    ++ JS.ofN (h_status resp) ++ js " - " ++ take 100 (h_text resp))
           else
             match h_json resp with
             | None => ret (js "Failed to parse Reddit API response: " ++ take 100 (h_text resp))
             | Some data => listingMarkdown data subreddit url cacheKey
             end
       end)
    (fun message => ret (js "Error fetching Reddit authenticated content: " ++ message)).

(** [/reddit\.com\/r\/([A-Za-z0-9_-]+)/i] *)
Definition subredditPattern : Re.re :=
  Re.seqs [Re.liti "reddit.com/r/";
           Re.Group 1 (Re.plus (Re.Char (fun c => JS.isWordChar c || (c =? 45))))].

Definition hasErrorIndicators (authResultMd : list N) : bool :=
  JS.includes authResultMd (js "Failed to")
  || JS.includes authResultMd (js "Error")
  || JS.includes authResultMd (js "limit")
  || JS.includes authResultMd (js "failed")
  || JS.includes authResultMd (js "not configured")
  || JS.includes authResultMd (js "authenticate").

(** What [handleRedditURL] does once the public API has answered. *)
Definition afterPublicApi (env : Env) (subreddit url cacheKey : list N)
           (publicApiResult : list N * bool) : M Result :=
  if negb (snd publicApiResult) && truthy (fst publicApiResult)
  then ret (mkResult url (fst publicApiResult) None None None)
  else
    let* authResultMd := fetchRedditAuthenticatedApi env subreddit url cacheKey in
    ret (mkResult url authResultMd (Some (hasErrorIndicators authResultMd)) None None).

Definition handleRedditURL (env : Env) (url : list N) : M Result :=
  tryCatch
    (match Re.exec subredditPattern url with
     | None => ret (mkResult url (js "Invalid Reddit URL format") (Some true) None None)
     | Some m =>
         let subreddit := default [] (Re.group m 1) in
         let cacheKey := js "Reddit:" ++ url in
         let* cached := cacheGet cacheKey in
         if truthyOpt cached then ret (mkResult url (default [] cached) None None None)
         else
           let* publicApiResult := fetchRedditPublicApi env subreddit url cacheKey in
           afterPublicApi env subreddit url cacheKey publicApiResult
     end)
    (fun message =>
       ret (mkResult url (js "Error processing Reddit URL: " ++ message) (Some true) None None)).

(** ** Content filter: [llm-process/llm-filter.ts] *)

Definition applyLlmFilter (env : Env) (md : list N) : M (list N) :=
  tryCatch
    (let* answer := ask (fun n => aiRun env n md) (EvLlm md) in ret (JS.trim answer))
    (fun _ => ret md).

(** ** Metadata synthesizer: [magi-util/convert-magi.ts] *)

(** [/^# (.+)$/m] *)
Definition titlePattern : Re.re :=
  Re.seqs [Re.Bol true; Re.lit "# "; Re.Group 1 (Re.plus Re.dot); Re.Eol true].

(** [/!\[.*?\]\((https?:\/\/[^)]+)\)/g] *)
Definition imagePattern : Re.re :=
  Re.seqs [Re.lit "!["; Re.Star false Re.dot; Re.lit "](";
           Re.Group 1 (Re.seqs [Re.lit "http"; Re.opt (Re.lit "s"); Re.lit "://";
                                Re.plus (Re.Char (fun c => negb (c =? 41)))]);
           Re.lit ")"].

(** [/`[^`]+`/g] *)
Definition codeSpanPattern : Re.re :=
  Re.seqs [Re.chr 96; Re.plus (Re.Char (fun c => negb (c =? 96))); Re.chr 96].

(** [/\b([A-Z][a-z]+(?:\s+[A-Z][a-z]+)+)\b/g] *)
Definition capitalizedPhrasePattern : Re.re :=
  Re.word (Re.Group 1
    (Re.seqs [Re.upper; Re.plus Re.lower;
              Re.plus (Re.seqs [Re.plus Re.ws; Re.upper; Re.plus Re.lower])])).

(** [/\b([A-Z]{2,})\b/g] *)
Definition acronymPattern : Re.re :=
  Re.word (Re.Group 1 (Re.seqs [Re.upper; Re.upper; Re.Star true Re.upper])).

(** A word, and a word with an optional plural [s], under the [i] flag. *)
Definition wordi (s : string) : Re.re := Re.word (Re.liti s).
Definition pluri (s : string) : Re.re :=
  Re.word (Re.seqs [Re.liti s; Re.opt (Re.liti "s")]).
(** Two words separated by [\s+]. *)
Definition twoi (a b : string) : Re.re :=
  Re.seqs [Re.liti a; Re.plus Re.ws; Re.liti b].

Definition matchesAny (markdown : list N) (l : list Re.re) : bool :=
  existsb (fun r => Re.test r markdown) l.

Definition extractTitle (markdown : list N) : list N :=
  match Re.exec titlePattern markdown with
  | Some m => orElse (default [] (Re.group m 1)) (js "Untitled Document")
  | None => js "Untitled Document"
  end.

(** The first paragraph that is not a heading, a fence, a table row or an
    image line, on one line and cut at 150 code units. *)
Definition isDescriptionParagraph (cleanPara : list N) : bool :=
  truthy cleanPara
  && negb (JS.startsWith cleanPara (js "#"))
  && negb (JS.startsWith cleanPara (js "```"))
  && negb (JS.startsWith cleanPara (js "|"))
  && negb (JS.startsWith cleanPara (js "!")).

Definition extractDescription (markdown : list N) : list N :=
  match List.find isDescriptionParagraph (List.map JS.trim (JS.split markdown (js "\n\n"))) with
  | Some cleanPara =>
      let description := take 150 (JS.replaceAllChar cleanPara 10 (js " ")) in
      if (length description =? 150)%nat then description ++ js "..." else description
  | None => []
  end.

Definition wordCount (markdown : list N) : nat := length (JS.splitWs markdown).

(** [Math.max(1, Math.round(wordCount / 200))]: [Math.round] takes the
    nearest integer, a half upwards, which for the quotient of a count by
    200 is the integer quotient of [wordCount + 100] by 200. *)
Definition readingTimeMinutes (markdown : list N) : nat :=
  Nat.max 1 ((wordCount markdown + 100) / 200).

Definition extractImages (markdown : list N) : list (list N) :=
  take 5 (omap (fun m => Re.group m 1) (Re.matchAll imagePattern markdown)).

Definition addCodeTerms (markdown : list N) (set : list (list N)) : list (list N) :=
  fold_left
    (fun acc m =>
       let term := JS.trim (JS.replaceAllChar (Re.whole m) 96 []) in
       if truthy term && (1 <? length term)%nat then JS.setAdd term acc else acc)
    (Re.matchAll codeSpanPattern markdown) set.

Definition addCapitalizedPhrases (markdown : list N) (set : list (list N)) : list (list N) :=
  fold_left
    (fun acc m =>
       if truthy (Re.whole m) && (3 <? length (Re.whole m))%nat
       then JS.setAdd (Re.whole m) acc else acc)
    (Re.matchAll capitalizedPhrasePattern markdown) set.

Definition addAcronyms (markdown : list N) (set : list (list N)) : list (list N) :=
  fold_left
    (fun acc m =>
       let a := Re.whole m in
       if truthy a && (2 <=? length a)%nat
          && negb (JS.eqb a (js "II")) && negb (JS.eqb a (js "III")) && negb (JS.eqb a (js "IV"))
       then JS.setAdd a acc else acc)
    (Re.matchAll acronymPattern markdown) set.

Definition extractEntities (markdown : list N) : list (list N) :=
  take 10 (addAcronyms markdown (addCapitalizedPhrases markdown (addCodeTerms markdown []))).

Definition detectPurpose (markdown : list N) : list N :=
  if matchesAny markdown
       [Re.word (twoi "how" "to");
        Re.word (Re.seqs [Re.liti "step"; Re.plus Re.ws; Re.plus Re.digit]);
        wordi "guide"; wordi "tutorial"]
  then js "tutorial"
  else if matchesAny markdown [wordi "reference"; wordi "specification"; wordi "documentation"]
  then js "reference"
  else if matchesAny markdown [wordi "opinion"; wordi "think"; wordi "believe"; wordi "argue"]
  then js "opinion"
  else if matchesAny markdown [wordi "analysis"; wordi "research"; wordi "study"]
  then js "analysis"
  else js "information".

Definition detectAudiences (markdown : list N) : list (list N) :=
  let audiences :=
    (if matchesAny markdown
          [pluri "developer"; wordi "code";
           Re.word (Re.seqs [Re.liti "programm"; Re.Alt (Re.liti "er") (Re.liti "ing")]);
           Re.word (Re.seqs [Re.liti "engine"; Re.Alt (Re.liti "er") (Re.liti "ering")])]
     then [js "developers"] else [])
    ++ (if matchesAny markdown
             [pluri "designer"; wordi "UX"; wordi "UI"; Re.word (twoi "user" "experience")]
        then [js "designers"] else [])
    ++ (if matchesAny markdown
             [pluri "manager"; pluri "leader"; pluri "executive"; wordi "CEO"; wordi "CTO"]
        then [js "managers"] else [])
    ++ (if matchesAny markdown [pluri "beginner"; pluri "novice"; wordi "introduction"]
        then [js "beginners"] else []) in
  match audiences with
  | [] => [js "general"]
  | _ => audiences
  end.

Definition domainTags : list (Re.re * list N) :=
  [ (Re.word (Re.alts [Re.liti "javascript"; Re.liti "typescript"; Re.liti "react";
                       Re.liti "angular"; Re.liti "vue";
                       Re.seqs [Re.liti "node"; Re.opt (Re.lit "."); Re.liti "js"]]),
     js "web-development");
    (Re.word (Re.alts [Re.liti "python"; Re.liti "django"; Re.liti "flask";
                       Re.liti "pandas"; Re.liti "numpy"]),
     js "python");
    (Re.word (Re.alts [Re.liti "ai"; twoi "machine" "learning"; twoi "deep" "learning";
                       twoi "neural" "network"; Re.liti "llm"; Re.liti "gpt"]),
     js "artificial-intelligence");
    (Re.word (Re.alts [twoi "data" "science"; Re.liti "statistics"; Re.liti "analytics";
                       Re.liti "visualization"; twoi "big" "data"]),
     js "data-science");
    (Re.word (Re.alts [Re.liti "cloud"; Re.liti "aws"; Re.liti "azure";
                       twoi "google" "cloud"; Re.liti "serverless"]),
     js "cloud-computing");
    (Re.word (Re.alts [Re.liti "devops"; Re.liti "ci/cd"; Re.liti "pipeline";
                       Re.liti "docker"; Re.liti "kubernetes"; Re.liti "k8s"]),
     js "devops");
    (Re.word (Re.alts [Re.liti "security"; Re.liti "encryption"; Re.liti "authentication";
                       Re.liti "authorization"; Re.liti "oauth"]),
     js "security") ].

Definition knownTechnologies : list (list N) :=
  List.map JS.js
    ["react"; "angular"; "vue"; "node"; "python"; "java"; "javascript"; "typescript";
     "kubernetes"; "docker"; "aws"; "azure"; "gcp"; "ai"; "ml"]%string.

Definition detectTags (markdown purpose : list N) (entities : list (list N)) : list (list N) :=
  let tags0 := JS.setAdd purpose [] in
  let tags1 :=
    fold_left (fun acc d => if Re.test (fst d) markdown then JS.setAdd (snd d) acc else acc)
              domainTags tags0 in
  fold_left
    (fun acc entity =>
       let lowerEntity := JS.toLowerCase entity in
       if existsb (JS.eqb lowerEntity) knownTechnologies then JS.setAdd lowerEntity acc else acc)
    entities tags1.

(** [s.replace(/\x22/g, '\\\x22')]: a backslash before every double quote. *)
Definition escapeQuotes (s : list N) : list N := JS.replaceAllChar s 34 (js "\\\x22").

Definition quoted (s : list N) : list N := js "\x22" ++ s ++ js "\x22".

(** [JSON.stringify] of an array of the fixed tag and audience words. *)
Definition stringifyWords (l : list (list N)) : list N :=
  js "[" ++ JS.join (js ",") (List.map quoted l) ++ js "]".

Definition yamlLines (clock : MagiClock) (url markdown : list N) : list (list N) :=
  let title := extractTitle markdown in
  let description := extractDescription markdown in
  let images := extractImages markdown in
  let entities := extractEntities markdown in
  let purpose := detectPurpose markdown in
  [ js "---";
    js "doc-id: " ++ quoted (uuid clock);
    js "title: " ++ quoted (escapeQuotes title);
    js "description: " ++ quoted (escapeQuotes description);
    js "created-date: " ++ quoted (isoNow clock);
    js "updated-date: " ++ quoted (isoNow clock);
    js "source-url: " ++ quoted url;
    js "purpose: " ++ quoted purpose;
    js "audience: " ++ stringifyWords (detectAudiences markdown);
    js "tags: " ++ stringifyWords (detectTags markdown purpose entities);
    js "reading-time-minutes: " ++ JS.ofNat (readingTimeMinutes markdown) ]
  ++ match images with
     | [] => []
     | [img] => [js "image: " ++ quoted img]
     | _ => js "images-list:" :: List.map (fun img => js "  - " ++ quoted img) images
     end
  ++ match entities with
     | [] => []
     | _ => js "entities:" :: List.map (fun e => js "  - " ++ quoted (escapeQuotes e)) entities
     end
  ++ [js "---"; []].

Definition summaryScript (clock : MagiClock) : list N :=
  JS.join (js "\n")
    [ [];
      js "<!-- AI-PROCESSOR: Content blocks marked with ```ai-script are instructions for AI systems -->";
      js "```ai-script";
      js "{";
      js "  \x22script-id\x22: \x22doc-summary-" ++ JS.ofN (summaryNow clock) ++ js "\x22,";
      js "  \x22prompt\x22: \x22Provide a concise summary of the main points covered in this document. Focus on the key information, main arguments, and important conclusions.\x22,";
      js "  \x22auto-run\x22: true,";
      js "  \x22priority\x22: \x22medium\x22,";
      js "  \x22output-format\x22: \x22markdown\x22";
      js "}";
      js "```" ].

Definition entityScript (clock : MagiClock) : list N :=
  JS.join (js "\n")
    [ [];
      js "<!-- AI-PROCESSOR: Entity extraction for long documents -->";
      js "```ai-script";
      js "{";
      js "  \x22script-id\x22: \x22entity-extract-" ++ JS.ofN (entityNow clock) ++ js "\x22,";
      js "  \x22prompt\x22: \x22Extract the key entities (people, organizations, technologies, concepts) mentioned in this document and provide a brief explanation of their significance in the context of this content.\x22,";
      js "  \x22auto-run\x22: false,";
      js "  \x22interactive-type\x22: \x22button\x22,";
      js "  \x22interactive-label\x22: \x22Extract Key Entities\x22,";
      js "  \x22priority\x22: \x22low\x22,";
      js "  \x22output-format\x22: \x22markdown\x22";
      js "}";
      js "```" ].

Definition convertToMagiFormat (clock : MagiClock) (url markdown : list N) : list N :=
  let magiDocument := JS.join (js "\n") (yamlLines clock url markdown) ++ markdown in
  if (1000 <? length markdown)%nat then
    let magiDocument := magiDocument ++ summaryScript clock in
    if (3000 <? length markdown)%nat
    then magiDocument ++ js "\n" ++ entityScript clock
    else magiDocument
  else magiDocument.

(** ** Cache-aside layer and fan-out: [getWebsiteMarkdown] *)

Definition rateLimitedResult (url : list N) : Result :=
  mkResult url (js "Rate limit exceeded") (Some true) (Some 429) None.

(** [RATELIMITER.limit({ key: ip ?? 'no-ip' })], skipped for the
    privileged token; answers whether the request must be refused. *)
Definition rateLimitExceeded (env : Env) (ctx : Ctx) : M bool :=
  if negb (JS.eqb (token ctx) (BACKEND_SECURITY_TOKEN env)) then
    fun w =>
      let key := default (js "no-ip") (ip ctx) in
      let success := limit env (now w) key in
      (Ok (negb success), emit (EvLimit key success) w)
  else ret false.

Definition cacheIdBase (ctx : Ctx) (url : list N) : list N :=
  url ++ (if llmFilter ctx then js "-llm" else []).

Definition defaultCacheKey (ctx : Ctx) (url : list N) : list N :=
  js "Default:" ++ cacheIdBase ctx url.

(** [urlObj.searchParams.has('nocache') || url.includes('nocache=true')];
    the constructor of [URL] may throw. *)
Definition shouldSkipCache (env : Env) (url : list N) : M bool :=
  match urlHasNocache env url with
  | Some has => ret (has || JS.includes url (js "nocache=true"))
  | None => throw (js "Invalid URL")
  end.

(** The page fetch of the generic strategy and what follows it: the error
    sentinel, the content filter, the write-back. *)
Definition fetchAndCache (env : Env) (ctx : Ctx) (url cacheKey : list N) : M Result :=
  let* md := ask (fun n => handleDefaultPage env n url) (EvPageFetch url) in
  let result := mkResult url md None None None in
  let* result :=
    if JS.startsWith md (js "## Error") then
      ret (mkResult url md (Some true)
                    (Some (if JS.includes md (js "Timeout") then 504 else 500))
                    (Some md))
    else if llmFilter ctx && negb (isError result) then
      let* filtered := applyLlmFilter env md in ret (withMd result filtered)
    else ret result in
  do* (if negb (isError result) then cachePut cacheKey (r_md result) 3600 else ret tt) in
  ret result.

(** The last branch of the router. *)
Definition defaultBranch (env : Env) (ctx : Ctx) (url : list N) : M Result :=
  let* skip := shouldSkipCache env url in
  let cacheKey := defaultCacheKey ctx url in
  let* cachedData :=
    if skip then do* cacheDelete cacheKey in ret None
    else cacheGet cacheKey in
  if truthyOpt cachedData
  then ret (mkResult url (default [] cachedData) None None None)
  else fetchAndCache env ctx url cacheKey.

Definition routeUrl (env : Env) (ctx : Ctx) (url : list N) : M Result :=
  match route url with
  | RYouTube =>
      let* md := ask (fun n => getYouTubeMetadata env n url) (EvHandler RYouTube url) in
      ret (mkResult url md None None None)
  | RTwitterProfile =>
      let* r := ask (fun n => handleTwitterProfilePage env n url)
                    (EvHandler RTwitterProfile url) in
      ret (mkResult url (fst r) (snd r) None None)
  | RTwitterTweet =>
      let* r := ask (fun n => handleTwitterTweetPage env n url)
                    (EvHandler RTwitterTweet url) in
      ret (mkResult url (fst r) (snd r) None None)
  | RTwitterFallback =>
      let* md := ask (fun n => handleDefaultPage env n url) (EvPageFetch url) in
      ret (mkResult url md (Some false) None None)
  | RReddit => handleRedditURL env url
  | RDefault => defaultBranch env ctx url
  end.

(** The body of the [try] of one callback of [urls.map]. *)
Definition processUrlBody (env : Env) (ctx : Ctx) (url : list N) : M Result :=
  let* refused := rateLimitExceeded env ctx in
  if refused then ret (rateLimitedResult url) else routeUrl env ctx url.

Definition unexpectedErrorResult (url message : list N) : Result :=
  mkResult url (js "Failed to process page due to unexpected error")
           (Some true) (Some 500) (Some message).

(** One callback, with its [catch]: it never rejects. *)
Definition processUrl (env : Env) (ctx : Ctx) (url : list N) (w : World) : Result * World :=
  match processUrlBody env ctx url w with
  | (Ok r, w') => (r, w')
  | (Throw message, w') => (unexpectedErrorResult url message, w')
  end.

(** [Promise.all]: the promises settle in the order of their completion
    ranks, each one writes the slot of its own index, and the array of
    slots is the value.  A callback is run as one step. *)
Definition finishesBefore (env : Env) (i j : nat) : Prop :=
  (finishRank env i <= finishRank env j)%nat.

#[global] Instance finishesBefore_dec (env : Env) (i j : nat) :
  Decision (finishesBefore env i j).
Proof. unfold finishesBefore. apply _. Defined.

Definition completionOrder (env : Env) (n : nat) : list nat :=
  merge_sort (finishesBefore env) (seq 0 n).

Fixpoint settle (f : list N -> World -> Result * World) (urls : list (list N))
         (order : list nat) (slots : list (option Result)) (w : World)
  : list (option Result) * World :=
  match order with
  | [] => (slots, w)
  | i :: order' =>
      match urls !! i with
      | Some u =>
          let '(r, w') := f u w in
          settle f urls order' (<[i := Some r]> slots) w'
      | None => settle f urls order' slots w
      end
  end.

Definition promiseAll (env : Env) (f : list N -> World -> Result * World)
           (urls : list (list N)) (w : World) : list Result * World :=
  let '(slots, w') :=
    settle f urls (completionOrder env (length urls)) (replicate (length urls) None) w in
  (omap id slots, w').

Definition browserErrorResult (url : list N) : Result :=
  mkResult url (js "[Browser] Could not start browser instance") (Some true) (Some 500) None.

Definition getWebsiteMarkdown (env : Env) (ctx : Ctx) (urls : list (list N)) (w : World)
  : list Result * World :=
  let '(isBrowserActive, w1) := ensureBrowser env w in
  if negb isBrowserActive then (List.map browserErrorResult urls, w1)
  else promiseAll env (processUrl env ctx) urls w1.

(** ** Responses *)

Inductive ContentType : Type := ApplicationJson | TextPlain | TextHtml.

(** The body of a response: text, the help page, the JSON of an error
    object (alone or in a one-element array) or of an array of results. *)
Inductive Body : Type :=
| BodyText (text : list N)
| BodyHelp
| BodyError (inArray : bool) (error : list N) (message : option (list N)) (url : option (list N))
| BodyResults (results : list Result).

Record Response : Type := mkResponse {
  resp_status : N;
  resp_type : ContentType;
  resp_body : Body
}.

(** [result.error ? (result.status || 500) : 200], then 429 for the rate
    limit sentinel. *)
Definition statusOf (result : Result) : N :=
  if JS.eqb (r_md result) (js "Rate limit exceeded") then 429
  else if isError result then
    match r_status result with
    | Some 0 | None => 500
    | Some s => s
    end
  else 200.

Definition annotate (clock : MagiClock) (result : Result) : Result :=
  if negb (isError result)
  then withMd result (convertToMagiFormat clock (r_url result) (r_md result))
  else result.

Definition processSinglePage (env : Env) (ctx : Ctx) (url : list N) (json : bool) (w : World)
  : Response * World :=
  let '(results, w1) := getWebsiteMarkdown env ctx [url] w in
  match results with
  | [] =>
      (mkResponse 500 ApplicationJson
         (BodyError json (js "Failed to process page")
                    (Some (js "Cannot read properties of undefined (reading 'error')")) (Some url)),
       w1)
  | result :: others =>
      let status := statusOf result in
      if json then
        let result :=
          if negb (isError result)
          then withMd result (convertToMagiFormat (magiClock env 0) url (r_md result))
          else result in
        (mkResponse status ApplicationJson (BodyResults (result :: others)), w1)
      else if isError result then
        (mkResponse status ApplicationJson
           (BodyError false (r_md result)
              (Some (orElse (default [] (r_errorDetails result)) (js "Error processing page")))
              (Some url)),
         w1)
      else
        (mkResponse status TextPlain
           (BodyText (convertToMagiFormat (magiClock env 0) url (r_md result))), w1)
  end.

(** ** Crawl aggregator: [handlers/crawl-subpages.ts] *)

(** [Array.from(new Set(links)).slice(0, 10)] *)
Definition uniqueLinks (links : list (list N)) : list (list N) :=
  take 10 (fold_left (fun acc l => JS.setAdd l acc) links []).

(** The loop that filters the results of a crawl when [llmFilter] is set. *)
Fixpoint filterResults (env : Env) (results : list Result) : M (list Result) :=
  match results with
  | [] => ret []
  | result :: rest =>
      let* result :=
        if negb (isError result) && negb (JS.startsWith (r_md result) (js "## Error"))
        then let* filtered := applyLlmFilter env (r_md result) in ret (withMd result filtered)
        else ret result in
      let* rest := filterResults env rest in
      ret (result :: rest)
  end.

(** [subpage.md.split('---\n\n')[1] || subpage.md] *)
Definition subpageContent (md : list N) : list N :=
  match JS.split md (js "---\n\n") with
  | _ :: second :: _ => orElse second md
  | _ => md
  end.

(** The subsection of one subpage that is not an error. *)
Definition subpageSection (subpage : Result) : list N :=
  let content := subpageContent (r_md subpage) in
  let titleMatch := Re.exec titlePattern content in
  let title :=
    match titleMatch with
    | Some m => default [] (Re.group m 1)
    | None => js "Untitled Subpage"
    end in
  js "\n\n### " ++ title ++ js " [URL](" ++ r_url subpage ++ js ")\n\n"
  ++ JS.trim (match titleMatch with
              | Some m => JS.replaceFirst content (Re.whole m) []
              | None => content
              end).

Definition isSubpageOf (baseUrl : list N) (r : Result) : bool :=
  negb (JS.eqb (r_url r) baseUrl).

(** The text answer of a crawl; [None] when there is no result at all
    (reading [md] of [undefined] throws). *)
Definition combinedDocument (baseUrl : list N) (magiResults : list Result) : option (list N) :=
  let mainResult :=
    match List.find (fun r => JS.eqb (r_url r) baseUrl) magiResults with
    | Some r => Some r
    | None => List.hd_error magiResults
    end in
  match mainResult with
  | None => None
  | Some main =>
      let subpageResults := List.filter (isSubpageOf baseUrl) magiResults in
      Some (r_md main
            ++ match subpageResults with
               | [] => []
               | _ =>
                   js "\n\n## Related Subpages\n"
                   ++ concat (List.map (fun subpage =>
                                          if negb (isError subpage)
                                          then subpageSection subpage else [])
                                       subpageResults)
               end)
  end.

Definition crawlStatus (magiResults : list Result) : N :=
  if existsb (fun item => isError item && JS.eqb (r_md item) (js "Rate limit exceeded"))
             magiResults
  then 429 else 200.

Definition crawlFailure (baseUrl : list N) (json : bool) (message : list N) : Response :=
  if json
  then mkResponse 500 ApplicationJson
         (BodyError false (js "Failed to crawl subpages") (Some message) (Some baseUrl))
  else mkResponse 500 TextPlain
         (BodyText (js "Error processing " ++ baseUrl ++ js ": " ++ message)).

Definition crawlBody (env : Env) (ctx : Ctx) (baseUrl : list N) (json : bool) : M Response :=
  let* _ := (fun w => match browser w with
                      | Some _ => (Ok tt, w)
                      | None => (Throw (js "Browser instance not initialized"), w)
                      end) in
  let* links := ask (fun n => pageLinks env n baseUrl) (EvLinks baseUrl) in
  let allUrls := baseUrl :: uniqueLinks links in
  let* results := (fun w => let '(rs, w') := getWebsiteMarkdown env ctx allUrls w in (Ok rs, w')) in
  let* results := (if llmFilter ctx then filterResults env results else ret results) in
  let magiResults := imap (fun i r => annotate (magiClock env i) r) results in
  let status := crawlStatus magiResults in
  if json then ret (mkResponse status ApplicationJson (BodyResults magiResults))
  else
    match combinedDocument baseUrl magiResults with
    | Some doc => ret (mkResponse status TextPlain (BodyText doc))
    | None => throw (js "Cannot read properties of undefined (reading 'md')")
    end.

Definition crawlSubpages (env : Env) (ctx : Ctx) (baseUrl : list N) (json : bool) (w : World)
  : Response * World :=
  match crawlBody env ctx baseUrl json w with
  | (Ok r, w') => (r, w')
  | (Throw message, w') => (crawlFailure baseUrl json message, w')
  end.

(** ** The durable object: [fetch], [ensureAlarmIsSet], [alarm] *)

(** What [fetch] reads from the request: the method, the query parameters
    [url], [subpages], [nocache] and [llmFilter] (the last three compared
    with ['true']), whether [content-type] is [application/json], and the
    [Authorization] and [cf-connecting-ip] headers. *)
Record Request : Type := mkRequest {
  method : list N;
  urlParam : option (list N);
  subpagesParam : bool;
  nocacheParam : bool;
  llmFilterParam : bool;
  contentTypeJson : bool;
  authorization : option (list N);
  connectingIp : option (list N)
}.

(** [/^(http|https):\/\/[^ \x22 ]+$/] *)
Definition validUrlPattern : Re.re :=
  Re.seqs [Re.Bol false; Re.Group 1 (Re.Alt (Re.lit "http") (Re.lit "https")); Re.lit "://";
           Re.plus (Re.Char (fun c => negb ((c =? 32) || (c =? 34)))); Re.Eol false].

Definition isValidUrl (url : list N) : bool := Re.test validUrlPattern url.

Definition jsonError (status : N) (error : list N) : Response :=
  mkResponse status ApplicationJson (BodyError false error None None).

Definition buildHelpResponse : Response := mkResponse 200 TextHtml BodyHelp.

(** The target of the request, with [nocache=true] written into it when
    the request asks for a bypass; a failure of that rewriting is logged
    and the target is kept. *)
Definition targetUrl (env : Env) (req : Request) : option (list N) :=
  match urlParam req with
  | Some u =>
      if truthy u && nocacheParam req
      then Some (default u (urlSetNocache env u))
      else Some u
  | None => None
  end.

Definition requestCtx (req : Request) : Ctx :=
  mkCtx (match authorization req with
         | Some a => JS.replaceFirst a (js "Bearer ") []
         | None => []
         end)
        (llmFilterParam req) (connectingIp req).

(** The [try] block of [fetch]. *)
Definition handleRequest (env : Env) (req : Request) (w : World) : Response * World :=
  if negb (JS.eqb (method req) (js "GET")) then (jsonError 405 (js "Method Not Allowed"), w)
  else
    match targetUrl env req with
    | None | Some [] => (buildHelpResponse, w)
    | Some url =>
        if negb (isValidUrl url) then
          (jsonError 400 (js "Invalid URL provided, should be a full URL starting with http:// or https://"), w)
        else
          let '(active, w1) := ensureBrowser env w in
          if negb active then
            (jsonError 500 (js "Could not start or connect to browser instance"), w1)
          else if subpagesParam req
          then crawlSubpages env (requestCtx req) url (contentTypeJson req) w1
          else processSinglePage env (requestCtx req) url (contentTypeJson req) w1
    end.

Definition emitSt (e : Event) (s : State) : State :=
  mkSt (keptAliveInSeconds s) (storedKeptAlive s) (alarmAt s) (emit e (world s)).

(** [storage.setAlarm(Date.now() + TEN_SECONDS)]; [false] when it rejects,
    and then no alarm is scheduled by the call. *)
Definition setAlarm (env : Env) (s : State) : bool * State :=
  let n := now (world s) in
  let time := (dateNow env n + TEN_SECONDS env)%Z in
  let ok := setAlarmOk env n in
  (ok, mkSt (keptAliveInSeconds s) (storedKeptAlive s)
            (if ok then Some time else alarmAt s)
            (emit (EvSetAlarm time ok) (world s))).

(** [storage.put] of the counter field under the key [keptAliveInSeconds]. *)
Definition persistCounter (env : Env) (s : State) : bool * State :=
  let ok := storagePutOk env (now (world s)) in
  (ok, mkSt (keptAliveInSeconds s)
            (if ok then Some (keptAliveInSeconds s) else storedKeptAlive s)
            (alarmAt s)
            (emit (EvStoragePut (keptAliveInSeconds s) ok) (world s))).

Definition ensureAlarmIsSet (env : Env) (s : State) : State :=
  match alarmAt s with
  | None => snd (setAlarm env s)
  | Some _ => s
  end.

(** [fetch]: the request is handled, then the [finally] block resets the
    counter field and arms the alarm when none is scheduled. *)
Definition fetch (env : Env) (req : Request) (s : State) : Response * State :=
  let '(resp, w') := handleRequest env req (world s) in
  (resp, ensureAlarmIsSet env (mkSt 0 (storedKeptAlive s) (alarmAt s) w')).

(** The shutdown of [alarm]: the handle is closed, a failure of [close] is
    logged, and the field is cleared. *)
Definition shutDownBrowser (env : Env) (s : State) : State :=
  match browser (world s) with
  | Some h =>
      let w := world s in
      mkSt (keptAliveInSeconds s) (storedKeptAlive s) (alarmAt s)
           (setBrowser None (emit (EvBrowserClose h (closeBrowser env (now w) h)) w))
  | None => s
  end.

(** [alarm], entered with the counter already in the field.  The [catch]
    of the handler arms the alarm again when a storage call rejected. *)
Definition alarm (env : Env) (s : State) : State :=
  let s1 := mkSt (keptAliveInSeconds s + 10)%Z (storedKeptAlive s) (alarmAt s) (world s) in
  let '(ok, s2) :=
    if (keptAliveInSeconds s1 <? KEEP_BROWSER_ALIVE_IN_SECONDS env)%Z
    then setAlarm env s1
    else (true, shutDownBrowser env s1) in
  if ok then
    let '(stored, s3) := persistCounter env s2 in
    if stored then s3 else snd (setAlarm env s3)
  else snd (setAlarm env s2).

(** A firing of the timer: possible only while an alarm is scheduled; the
    platform clears the alarm that fires before it runs the handler. *)
Definition fire (env : Env) (s : State) : option State :=
  match alarmAt s with
  | Some _ =>
      Some (alarm env (mkSt (keptAliveInSeconds s) (storedKeptAlive s) None (world s)))
  | None => None
  end.

(** [n] firings in a row, with no request between them. *)
Fixpoint fireTimes (env : Env) (n : nat) (s : State) : option State :=
  match n with
  | O => Some s
  | S n' =>
      match fire env s with
      | Some s' => fireTimes env n' s'
      | None => None
      end
  end.

(** The constructor of the object after an eviction: the counter field is
    read back from the storage ([stored || 0]); the browser field of a new
    object is unset. *)
Definition reload (s : State) : State :=
  mkSt (default 0%Z (storedKeptAlive s)) (storedKeptAlive s) (alarmAt s)
       (setBrowser None (world s)).

(** ** Notions used to state the properties *)

(** *** Launch attempts and the shape of a run of [ensureBrowser] *)








(** *** Results of a computation *)


(** *** Page fetches in a trace *)

Definition isPageFetch (e : Event) : bool :=
  match e with EvPageFetch _ => true | _ => false end.

Definition pageFetches (evs : list Event) : nat := length (List.filter isPageFetch evs).

(** The events added between two worlds. *)
Definition newEvents (w w' : World) : list Event := drop (length (trace w)) (trace w').

(** *** Words of a body *)

(** The number of maximal runs of code units other than white space. *)
Fixpoint wordsFrom (afterSpace : bool) (s : list N) : nat :=
  match s with
  | [] => 0
  | c :: s' =>
      if JS.isWhiteSpace c then wordsFrom true s'
      else (if afterSpace then 1 else 0) + wordsFrom false s'
  end.

Definition words (s : list N) : nat := wordsFrom true s.

(** What the split adds to the words: one piece before leading white
    space (and the single piece of the empty body), one after trailing
    white space. *)
Definition leadingPiece (s : list N) : nat :=
  match s with
  | [] => 1
  | c :: _ => if JS.isWhiteSpace c then 1 else 0
  end.

Definition trailingPiece (s : list N) : nat :=
  match List.last (List.map Some s) None with
  | Some c => if JS.isWhiteSpace c then 1 else 0
  | None => 0
  end.

(** The reading time as the specification words it: the quotient of the
    number of words by 200, rounded up, and at least 1. *)
Definition ceilDiv (a b : nat) : nat := (a + b - 1) / b.

Definition claimedReadingTime (markdown : list N) : nat :=
  Nat.max 1 (ceilDiv (words markdown) 200).

(** *** Directive blocks *)



(** *** Scenarios *)

(** A world in which every collaborator answers: launches succeed, the
    limiter lets it through, pages come from [page], a crawl finds [links].  The
    URL class is given for targets with a path and neither query nor
    fragment, where setting the parameter appends [?nocache=true]. *)
Definition scenarioBase (launches : nat -> option Handle)
           (listed : option (list SessionId)) (closes : SessionId -> bool)
           (rank : nat -> nat)
           (page : list N -> Outcome (list N)) (links : list (list N)) : Env :=
  mkEnv 60%Z 10000%Z (js "secret") [] [] (fun _ => 0%Z)
        launches (fun _ _ => true) (fun _ => listed) (fun _ => closes)
        (fun _ _ => true)
        (fun _ => true) (fun _ => true)
        (fun _ _ => true)
        (fun u => Some (JS.includes u (js "?nocache=")))
        (fun u => Some (u ++ js "?nocache=true"))
        (fun _ u => page u)
        (fun _ md => Ok md)
        (fun _ _ => Throw (js "not reached"))
        (fun _ _ => Throw (js "not reached"))
        (fun _ _ => Throw (js "not reached"))
        (fun _ _ => Throw (js "not reached"))
        (fun _ => Throw (js "not reached"))
        (fun _ _ _ => Throw (js "not reached"))
        (fun _ _ => Ok links)
        rank
        (fun _ => mkClock (js "0000") (js "2025-01-01T00:00:00.000Z") 0 0).

Definition scenarioEnvRanked (rank : nat -> nat)
           (page : list N -> Outcome (list N)) (links : list (list N)) : Env :=
  scenarioBase (fun _ => Some 1%nat) (Some []) (fun _ => true) rank page links.

Definition scenarioEnv (page : list N -> Outcome (list N)) (links : list (list N)) : Env :=
  scenarioEnvRanked (fun i => i) page links.

(** No launch ever succeeds; two sessions are listed and the first cannot
    be closed. *)
Definition launchesFail : Env :=
  scenarioBase (fun _ => None) (Some [js "s1"; js "s2"])
               (fun sid => negb (JS.eqb sid (js "s1")))
               (fun i => i) (fun _ => Ok []) [].



Definition emptyWorld : World := mkWorld None ∅ [].

Definition freshState : State := mkSt 0%Z None None emptyWorld.

Definition getRequest (url : list N) (subpages nocache json : bool) : Request :=
  mkRequest (js "GET") (Some url) subpages nocache false json None None.

Definition anonymous : Ctx := mkCtx [] false None.

(** A body of [n] one-letter words separated by single spaces, and a body
    of [n] letters. *)
Definition bodyOfWords (n : nat) : list N := JS.join (js " ") (repeat (js "a") n).

(** A world with a launched browser and one cache entry, and the state of
    an object around it. *)
Definition cachedWorld (key value : list N) : World :=
  mkWorld (Some 1%nat) {[ key := (value, 3600) ]} [].

Definition cachedState (key value : list N) : State :=
  mkSt 0%Z None None (cachedWorld key value).

(** Every page reads [fresh]. *)
Definition freshPages : Env := scenarioEnv (fun _ => Ok (js "fresh")) [].


(** An object whose alarm is scheduled, with a launched browser. *)
Definition armedState : State :=
  mkSt 0%Z None (Some 10000%Z) (mkWorld (Some 1%nat) ∅ []).

Definition isBrowserClose (e : Event) : bool :=
  match e with EvBrowserClose _ _ => true | _ => false end.

Definition browserCloses (evs : list Event) : nat := length (List.filter isBrowserClose evs).

(** The substrings that [handleRedditURL] takes for signs of an error. *)
Definition errorMarkers : list (list N) :=
  [js "Failed to"; js "Error"; js "limit"; js "failed"; js "not configured";
   js "authenticate"].

(** The public API answers 429; the token endpoint and the OAuth API
    answer with [listing]. *)
Definition redditEnv (listing : Listing) : Env :=
  mkEnv 60%Z 10000%Z (js "secret") (js "id") (js "key") (fun _ => 0%Z)
        (fun _ => Some 1%nat) (fun _ _ => true) (fun _ => Some []) (fun _ _ => true)
        (fun _ _ => true)
        (fun _ => true) (fun _ => true)
        (fun _ _ => true)
        (fun _ => Some false)
        (fun u => Some u)
        (fun _ _ => Ok [])
        (fun _ md => Ok md)
        (fun _ _ => Throw (js "not reached"))
        (fun _ _ => Throw (js "not reached"))
        (fun _ _ => Throw (js "not reached"))
        (fun _ _ => Ok (mkHttp 429 None [] None))
        (fun _ => Ok (mkToken 200 [] (Some (js "token"))))
        (fun _ _ _ => Ok (mkHttp 200 None [] (Some listing)))
        (fun _ _ => Ok [])
        (fun i => i)
        (fun _ => mkClock (js "0000") (js "2025-01-01T00:00:00.000Z") 0 0).

(** A listing with one post, about a speed limit. *)
Definition speedLimitListing : Listing :=
  mkListing None None
    [Some (mkPost (js "New speed limit on the bridge") (js "alice") 12 3
                  (js "1/1/2025, 12:00:00 AM") [] []
                  (js "/r/cycling/comments/1/new_speed_limit/"))].

(** A site whose subpage has a horizontal rule between two headed
    sections, and one whose subpage has a single section. *)
Definition seedUrl : list N := js "https://example.com/".
Definition subpageUrl : list N := js "https://example.com/a".
Definition seedBody : list N := js "# Home\n\nWelcome.".
Definition ruledBody : list N := js "# First\n\nIntro.\n\n---\n\n# Second\n\nMore.".
Definition plainBody : list N := js "# First\n\nIntro.".

Definition siteWith (subpageBody : list N) : Env :=
  scenarioEnv (fun u => if JS.eqb u seedUrl then Ok seedBody else Ok subpageBody)
              [subpageUrl].

Definition warmWorld : World := mkWorld (Some 1%nat) ∅ [].

Definition relatedSubpages : list N := js "\n\n## Related Subpages\n".

(** * Properties *)

(** ** Strings *)

Section StringFacts.

Implicit Types s p sub t : list N.

Lemma startsWith_true s p : JS.startsWith s p = true <-> exists t, s = p ++ t.
Proof.
  revert s. induction p as [|a p IH]; intros s; simpl.
  - split; [intros _; exists s; reflexivity | reflexivity].
  - destruct s as [|b s].
    + split; [discriminate | intros [t Ht]; discriminate].
    + rewrite andb_true_iff, N.eqb_eq, IH. split.
      * intros [-> [t ->]]. exists t. reflexivity.
      * intros [t Ht]. injection Ht as -> ->. split; [reflexivity | exists t; reflexivity].
Qed.

Lemma startsWith_app s p : JS.startsWith (p ++ s) p = true.
Proof. apply startsWith_true. exists s. reflexivity. Qed.

Lemma includes_true s sub :
  JS.includes s sub = true <-> exists a b, s = a ++ sub ++ b.
Proof.
  induction s as [|c s IH].
  - simpl. rewrite orb_false_r, startsWith_true. split.
    + intros [t Ht]. exists [], t. exact Ht.
    + intros [a [b Hab]]. destruct a; [exists b; exact Hab | discriminate].
  - cbn [JS.includes]. rewrite orb_true_iff, IH, startsWith_true. split.
    + intros [[t Ht] | [a [b Hab]]].
      * exists [], t. exact Ht.
      * exists (c :: a), b. rewrite Hab. reflexivity.
    + intros [a [b Hab]]. destruct a as [|x a].
      * left. exists b. exact Hab.
      * right. injection Hab as -> ->. exists a, b. reflexivity.
Qed.

Lemma includes_app_l s t sub : JS.includes s sub = true -> JS.includes (s ++ t) sub = true.
Proof.
  rewrite !includes_true. intros [a [b ->]]. exists a, (b ++ t).
  rewrite <- !app_assoc. reflexivity.
Qed.

Lemma includes_app_r s t sub : JS.includes t sub = true -> JS.includes (s ++ t) sub = true.
Proof.
  rewrite !includes_true. intros [a [b ->]]. exists (s ++ a), b.
  rewrite <- !app_assoc. reflexivity.
Qed.

Lemma js_eqb_eq s t : JS.eqb s t = true <-> s = t.
Proof.
  revert t. induction s as [|a s IH]; intros [|b t]; simpl; try (split; congruence).
  rewrite andb_true_iff, N.eqb_eq, IH. split; [intros [-> ->]; reflexivity | intros H; injection H; auto].
Qed.

Lemma js_eqb_refl s : JS.eqb s s = true.
Proof. apply js_eqb_eq. reflexivity. Qed.

(** Splitting at a single code unit. *)





End StringFacts.

(** ** Extraction router *)






(** ** Metadata synthesizer *)

Lemma trailingPiece_cons c s :
  trailingPiece (c :: s) =
  match s with
  | [] => if JS.isWhiteSpace c then 1%nat else 0%nat
  | _ => trailingPiece s
  end.
Proof. destruct s; reflexivity. Qed.

(** The number of pieces of the split, inside a word and inside white
    space. *)
Lemma splitWsAux_length s :
  (forall cur, length (JS.splitWsAux cur false s)
               = (wordsFrom false s + 1 + trailingPiece s)%nat)
  /\ (forall cur, length (JS.splitWsAux cur true s)
                  = (wordsFrom true s
                     + match s with [] => 1 | _ => trailingPiece s end)%nat).
Proof.
  induction s as [|c s [IHf IHt]]; [split; reflexivity|].
  assert (Hws : JS.isWhiteSpace c = true ->
                match s with [] => 1%nat | _ => trailingPiece s end = trailingPiece (c :: s)).
  { intros Hc. rewrite trailingPiece_cons, Hc. destruct s; reflexivity. }
  assert (Hnw : JS.isWhiteSpace c = false -> trailingPiece s = trailingPiece (c :: s)).
  { intros Hc. rewrite trailingPiece_cons, Hc. destruct s; reflexivity. }
  split; intros cur; cbn [JS.splitWsAux wordsFrom]; destruct (JS.isWhiteSpace c) eqn:Hc.
  - cbn [length]. rewrite IHt, (Hws eq_refl). lia.
  - rewrite IHf, (Hnw eq_refl). lia.
  - rewrite IHt, (Hws eq_refl). lia.
  - rewrite IHf, (Hnw eq_refl). lia.
Qed.

Lemma wordCount_words markdown :
  wordCount markdown
  = (words markdown + leadingPiece markdown + trailingPiece markdown)%nat.
Proof.
  unfold wordCount, JS.splitWs, words.
  rewrite (proj1 (splitWsAux_length markdown)).
  destruct markdown as [|c s]; [reflexivity|].
  cbn [wordsFrom leadingPiece]. destruct (JS.isWhiteSpace c); lia.
Qed.

(** C8 (as amended). The reading time is the quotient of the word count
    by 200 rounded to the nearest integer, a half upwards, and at least 1;
    the word count is the number of pieces of the split at runs of white
    space: the words of the body, one more piece when the body starts with
    white space or is empty, and one more when it ends with white space. *)
Theorem reading_time_rounds_to_nearest (markdown : list N) :
  wordCount markdown
  = (words markdown + leadingPiece markdown + trailingPiece markdown)%nat
  /\ (1 <= readingTimeMinutes markdown)%nat
  /\ ((wordCount markdown < 100)%nat -> readingTimeMinutes markdown = 1%nat)
  /\ ((100 <= wordCount markdown)%nat ->
      (200 * readingTimeMinutes markdown <= wordCount markdown + 100
       < 200 * readingTimeMinutes markdown + 200)%nat).
Proof.
  split; [apply wordCount_words|].
  unfold readingTimeMinutes. set (w := wordCount markdown).
  pose proof (Nat.div_mod_eq (w + 100) 200) as Hdiv.
  pose proof (Nat.mod_upper_bound (w + 100) 200 ltac:(lia)) as Hmod.
  split; [lia|]. split; intros Hw.
  - assert ((w + 100) / 200 = 0)%nat by (apply Nat.div_small; lia). lia.
  - assert (1 <= (w + 100) / 200)%nat by (apply Nat.div_le_lower_bound; lia). lia.
Qed.

Lemma reading_time_rounds_to_nearest_witness :
  (200 * readingTimeMinutes (bodyOfWords 201) <= wordCount (bodyOfWords 201) + 100
   < 200 * readingTimeMinutes (bodyOfWords 201) + 200)%nat.
Proof.
  apply (reading_time_rounds_to_nearest (bodyOfWords 201)).
  vm_compute. lia.
Defined.

(** C8 (as stated) fails: a body of 201 words has a reading time of 1
    minute, where the quotient rounded up is 2. *)
Lemma reading_time_is_not_rounded_up :
  words (bodyOfWords 201) = 201%nat
  /\ wordCount (bodyOfWords 201) = 201%nat
  /\ readingTimeMinutes (bodyOfWords 201) = 1%nat
  /\ claimedReadingTime (bodyOfWords 201) = 2%nat.
Proof. vm_compute. repeat split. Qed.




(** ** Reasoning about effects *)


(** A handler that returns makes the whole [try] return. *)
Lemma tryCatch_total {A : Type} (m : M A) (h : list N -> A) w :
  exists a w', tryCatch m (fun e => ret (h e)) w = (Ok a, w').
Proof.
  unfold tryCatch, ret. destruct (m w) as [[a|e] w1]; eauto.
Qed.











(** ** Fan-out *)

Section FanOut.

Variable f : list N -> World -> Result * World.
Variable urls : list (list N).


End FanOut.






(** ** Resource handle manager *)















(** The run that gives up: three failed launches, and between them the
    two listed sessions tried one after the other although the first
    cannot be closed. *)
Example ensureBrowser_gives_up :
  ensureBrowser launchesFail emptyWorld
  = (false,
     mkWorld None ∅
       [ EvLaunch None;
         EvSessions (Some [js "s1"; js "s2"]);
         EvCloseSession (js "s1") false; EvCloseSession (js "s2") true;
         EvLaunch None;
         EvSessions (Some [js "s1"; js "s2"]);
         EvCloseSession (js "s1") false; EvCloseSession (js "s2") true;
         EvLaunch None ]).
Proof. reflexivity. Qed.

(** ** Cache-aside layer *)

(** Runs the primitive effects of a goal. *)
Ltac run_effects :=
  cbv beta iota zeta delta
      [ret bind throw ask cacheGet cachePut cacheDelete emit setCache setBrowser
       withMd isError negb andb fst snd
       r_url r_md r_error r_status r_errorDetails trace cache browser].

Lemma newEvents_app w w' evs : trace w' = trace w ++ evs -> newEvents w w' = evs.
Proof. unfold newEvents. intros ->. apply drop_app_length. Qed.

Lemma pageFetches_app a b : pageFetches (a ++ b) = (pageFetches a + pageFetches b)%nat.
Proof. unfold pageFetches. rewrite List.filter_app, length_app. reflexivity. Qed.

(** One page fetch between two worlds, and where it sits in the trace. *)
Lemma one_page_fetch w w1 w' url pre evs :
  trace w1 = trace w ++ pre ->
  trace w' = trace w1 ++ EvPageFetch url :: evs ->
  pageFetches pre = 0%nat -> pageFetches evs = 0%nat ->
  pageFetches (newEvents w w') = 1%nat
  /\ trace w' !! now w1 = Some (EvPageFetch url).
Proof.
  intros H1 H' Hpre Hevs. split.
  - rewrite (newEvents_app w w' (pre ++ [EvPageFetch url] ++ evs)).
    + rewrite !pageFetches_app, Hpre, Hevs. reflexivity.
    + rewrite H', H1, <- app_assoc. reflexivity.
  - rewrite H'. apply list_lookup_middle. reflexivity.
Qed.

(** The limiter check adds at most its own event and leaves the cache. *)
Lemma rateLimitExceeded_frame env ctx w :
  exists refused evs,
    rateLimitExceeded env ctx w
    = (Ok refused, mkWorld (browser w) (cache w) (trace w ++ evs))
    /\ pageFetches evs = 0%nat.
Proof.
  unfold rateLimitExceeded. destruct (negb (JS.eqb (token ctx) (BACKEND_SECURITY_TOKEN env))).
  - eexists _, [_]. split; reflexivity.
  - exists false, []. unfold ret. rewrite app_nil_r. destruct w. split; reflexivity.
Qed.

Lemma processUrl_default env ctx url w w0 :
  route url = RDefault ->
  rateLimitExceeded env ctx w = (Ok false, w0) ->
  processUrl env ctx url w
  = match defaultBranch env ctx url w0 with
    | (Ok r, w') => (r, w')
    | (Throw message, w') => (unexpectedErrorResult url message, w')
    end.
Proof.
  intros Hroute Hpass. unfold processUrl, processUrlBody, bind. rewrite Hpass.
  unfold routeUrl. rewrite Hroute. reflexivity.
Qed.


(** With a bypass the branch deletes the entry of its own key and goes on
    to the page fetch. *)
Lemma defaultBranch_bypass env ctx url w has :
  urlHasNocache env url = Some has ->
  has || JS.includes url (js "nocache=true") = true ->
  defaultBranch env ctx url w
  = let key := defaultCacheKey ctx url in
    fetchAndCache env ctx url key
      (emit (EvCacheDelete key) (setCache (delete key (cache w)) w)).
Proof.
  intros Hhas Hskip. unfold defaultBranch, shouldSkipCache, bind. rewrite Hhas.
  cbn [ret]. rewrite Hskip. reflexivity.
Qed.

Lemma applyLlmFilter_frame env md w :
  exists md', applyLlmFilter env md w = (Ok md', emit (EvLlm md) w).
Proof.
  unfold applyLlmFilter, tryCatch, bind, ask, ret.
  destruct (aiRun env (now w) md); eauto.
Qed.

(** The fetch and what is written back, by the outcome of the page. *)
Lemma fetchAndCache_outcome env ctx url key w :
  match handleDefaultPage env (now w) url with
  | Throw e => fetchAndCache env ctx url key w = (Throw e, emit (EvPageFetch url) w)
  | Ok md =>
      if JS.startsWith md (js "## Error") then
        fetchAndCache env ctx url key w
        = (Ok (mkResult url md (Some true)
                        (Some (if JS.includes md (js "Timeout") then 504 else 500))
                        (Some md)),
           emit (EvPageFetch url) w)
      else
        exists md' evs,
          fetchAndCache env ctx url key w
          = (Ok (mkResult url md' None None None),
             mkWorld (browser w) (<[key := (md', 3600)]> (cache w))
                     (trace w ++ EvPageFetch url :: evs))
          /\ pageFetches evs = 0%nat
          /\ (llmFilter ctx = false -> md' = md)
  end.
Proof.
  unfold fetchAndCache, bind, ask.
  destruct (handleDefaultPage env (now w) url) as [md|e]; [|reflexivity].
  destruct (JS.startsWith md (js "## Error")); [reflexivity|].
  destruct (llmFilter ctx); cbn [andb negb isError r_error].
  - destruct (applyLlmFilter_frame env md (emit (EvPageFetch url) w)) as [md' ->].
    exists md', [EvLlm md; EvCachePut key md' 3600].
    run_effects. rewrite <- !app_assoc.
    split; [reflexivity|]. split; [reflexivity | discriminate].
  - exists md, [EvCachePut key md 3600].
    run_effects. rewrite <- !app_assoc. split; [reflexivity|]. split; reflexivity.
Qed.




Lemma defaultCacheKey_inj ctx u u' : defaultCacheKey ctx u = defaultCacheKey ctx u' -> u = u'.
Proof.
  unfold defaultCacheKey, cacheIdBase. intros H.
  apply app_inv_head in H. apply app_inv_tail in H. exact H.
Qed.

(** A bypass deletes the entry of the target it was given, then fetches
    the page, and leaves the entry of every other target as it was. *)
Lemma bypass_touches_its_own_key env ctx url w has other :
  route url = RDefault ->
  urlHasNocache env url = Some has ->
  has || JS.includes url (js "nocache=true") = true ->
  fst (rateLimitExceeded env ctx w) = Ok false ->
  other <> url ->
  let w' := snd (processUrl env ctx url w) in
  pageFetches (newEvents w w') = 1%nat
  /\ (exists n, trace w' !! n = Some (EvCacheDelete (defaultCacheKey ctx url))
                /\ trace w' !! S n = Some (EvPageFetch url))
  /\ cache w' !! defaultCacheKey ctx other = cache w !! defaultCacheKey ctx other.
Proof.
  intros Hroute Hhas Hskip Hpass Hother.
  assert (Hkey : defaultCacheKey ctx url <> defaultCacheKey ctx other)
    by (intros E; apply defaultCacheKey_inj in E; congruence).
  destruct (rateLimitExceeded_frame env ctx w) as (refused & evs0 & Erl & Hevs0).
  rewrite Erl in Hpass. cbn [fst] in Hpass. injection Hpass as ->.
  cbn zeta. rewrite (processUrl_default env ctx url w _ Hroute Erl).
  rewrite (defaultBranch_bypass env ctx url _ has Hhas Hskip). cbn zeta.
  set (key := defaultCacheKey ctx url) in *.
  set (w0 := mkWorld (browser w) (cache w) (trace w ++ evs0)).
  set (w1 := emit (EvCacheDelete key) (setCache (delete key (cache w0)) w0)).
  assert (Htr1 : trace w1 = trace w ++ evs0 ++ [EvCacheDelete key])
    by (subst w1 w0; unfold emit, setCache; cbn [trace]; rewrite <- app_assoc; reflexivity).
  assert (Hpre : pageFetches (evs0 ++ [EvCacheDelete key]) = 0%nat)
    by (rewrite pageFetches_app, Hevs0; reflexivity).
  assert (Hc1 : cache w1 !! defaultCacheKey ctx other = cache w !! defaultCacheKey ctx other)
    by (subst w1 w0; unfold emit, setCache; cbn [cache]; apply lookup_delete_ne; exact Hkey).
  assert (Hdel : forall evs, (trace w1 ++ evs) !! length (trace w0) = Some (EvCacheDelete key)).
  { intros evs. subst w1. unfold emit, setCache. cbn [trace].
    rewrite <- app_assoc. apply list_lookup_middle. reflexivity. }
  assert (Hnow : now w1 = S (length (trace w0)))
    by (subst w1; unfold now, emit, setCache; cbn [trace]; rewrite length_app; cbn; lia).
  pose proof (fetchAndCache_outcome env ctx url key w1) as Hout.
  destruct (handleDefaultPage env (now w1) url) as [md|e].
  - destruct (JS.startsWith md (js "## Error")).
    + rewrite Hout. cbn [fst snd].
      destruct (one_page_fetch w w1 (emit (EvPageFetch url) w1) url _ []
                  Htr1 eq_refl Hpre eq_refl) as [Hone Hat].
      split; [exact Hone|]. split; [|exact Hc1].
      exists (length (trace w0)). split; [apply Hdel | rewrite <- Hnow; exact Hat].
    + destruct Hout as (md' & evs & -> & Hevs & _). cbn [fst snd].
      destruct (one_page_fetch w w1
                  (mkWorld (browser w1) (<[key := (md', 3600)]> (cache w1))
                           (trace w1 ++ EvPageFetch url :: evs)) url _ evs
                  Htr1 eq_refl Hpre Hevs) as [Hone Hat].
      split; [exact Hone|]. split.
      * exists (length (trace w0)). split; [apply Hdel | rewrite <- Hnow; exact Hat].
      * cbn [cache]. rewrite lookup_insert_ne by exact Hkey. exact Hc1.
  - rewrite Hout. cbn [fst snd].
    destruct (one_page_fetch w w1 (emit (EvPageFetch url) w1) url _ []
                Htr1 eq_refl Hpre eq_refl) as [Hone Hat].
    split; [exact Hone|]. split; [|exact Hc1].
    exists (length (trace w0)). split; [apply Hdel | rewrite <- Hnow; exact Hat].
Qed.

(** C3, at the failing input.  A value is cached for
    [https://example.com/page]; a request for that target with
    [nocache=true] fetches the page, but the key it deletes, and then
    writes, is the one of the rewritten target, so the old entry is still
    there and the next plain request for the target is answered from it. *)
Theorem bypass_leaves_stale_entry :
  let target := js "https://example.com/page" in
  let s0 := cachedState (js "Default:https://example.com/page") (js "stale") in
  let after := fetch freshPages (getRequest target false true false) s0 in
  let later := fetch freshPages (getRequest target false false false) (snd after) in
  targetUrl freshPages (getRequest target false true false)
  = Some (js "https://example.com/page?nocache=true")
  /\ resp_body (fst after)
     = BodyText (convertToMagiFormat (magiClock freshPages 0)
                   (js "https://example.com/page?nocache=true") (js "fresh"))
  /\ List.filter (fun e => match e with EvCacheDelete _ => true | _ => false end)
                 (trace (world (snd after)))
     = [EvCacheDelete (js "Default:https://example.com/page?nocache=true")]
  /\ cache (world (snd after)) !! js "Default:https://example.com/page"
     = Some (js "stale", 3600)
  /\ cache (world (snd after)) !! js "Default:https://example.com/page?nocache=true"
     = Some (js "fresh", 3600)
  /\ resp_body (fst later)
     = BodyText (convertToMagiFormat (magiClock freshPages 0) target (js "stale")).
Proof. cbv zeta. repeat split; vm_compute; reflexivity. Qed.

(** ** Idle lifecycle *)

Section IdleLifecycle.

Variable env : Env.

(** The storage accepts every call. *)
Hypothesis setAlarm_accepted : forall n, setAlarmOk env n = true.
Hypothesis put_accepted : forall n, storagePutOk env n = true.

(** One firing: the counter field grows by 10 and is written back; below
    the threshold the alarm is armed again and the handle is kept; at the
    threshold no alarm is armed and the handle, if there is one, is closed
    once and dropped. *)
Lemma fire_tick s :
  alarmAt s <> None ->
  exists s',
    fire env s = Some s'
    /\ keptAliveInSeconds s' = (keptAliveInSeconds s + 10)%Z
    /\ storedKeptAlive s' = Some (keptAliveInSeconds s + 10)%Z
    /\ ((keptAliveInSeconds s + 10 < KEEP_BROWSER_ALIVE_IN_SECONDS env)%Z ->
        alarmAt s' <> None
        /\ browser (world s') = browser (world s)
        /\ browserCloses (newEvents (world s) (world s')) = 0%nat)
    /\ ((KEEP_BROWSER_ALIVE_IN_SECONDS env <= keptAliveInSeconds s + 10)%Z ->
        alarmAt s' = None
        /\ browser (world s') = None
        /\ browserCloses (newEvents (world s) (world s'))
           = match browser (world s) with Some _ => 1%nat | None => 0%nat end).
Proof.
  intros Harmed. unfold fire. destruct (alarmAt s) as [t|]; [clear Harmed | contradiction].
  eexists. split; [reflexivity|]. unfold alarm. cbn [keptAliveInSeconds].
  destruct (Z.ltb_spec (keptAliveInSeconds s + 10) (KEEP_BROWSER_ALIVE_IN_SECONDS env)).
  - unfold setAlarm. cbn [world]. rewrite setAlarm_accepted.
    unfold persistCounter. cbn [world]. rewrite put_accepted.
    cbn [keptAliveInSeconds storedKeptAlive alarmAt world].
    split; [reflexivity|]. split; [reflexivity|]. split; [|lia]. intros _.
    split; [discriminate|]. split; [reflexivity|].
    erewrite newEvents_app; [|unfold emit; cbn [trace]; rewrite <- app_assoc; reflexivity].
    reflexivity.
  - unfold shutDownBrowser. cbn [world]. destruct (browser (world s)) as [h|] eqn:Hb;
      unfold persistCounter; cbn [world]; rewrite put_accepted;
      cbn [keptAliveInSeconds storedKeptAlive alarmAt world];
      (split; [reflexivity|]); (split; [reflexivity|]); (split; [lia|]); intros _;
      (split; [reflexivity|]).
    + split; [reflexivity|].
      erewrite newEvents_app;
        [|unfold emit, setBrowser; cbn [trace]; rewrite <- app_assoc; reflexivity].
      reflexivity.
    + split; [exact Hb|].
      erewrite newEvents_app; [|unfold emit; cbn [trace]; reflexivity].
      reflexivity.
Qed.

(** [n] firings in a row add [10 * n] to the counter, and the storage
    holds the counter after the last of them. *)
Lemma fireTimes_counter n :
  forall s s',
    fireTimes env n s = Some s' ->
    keptAliveInSeconds s' = (keptAliveInSeconds s + 10 * Z.of_nat n)%Z
    /\ ((0 < n)%nat -> storedKeptAlive s' = Some (keptAliveInSeconds s')).
Proof.
  induction n as [|n IH]; intros s s' H.
  - injection H as <-. split; [lia|lia].
  - cbn [fireTimes] in H. destruct (fire env s) as [s1|] eqn:Efire; [|discriminate].
    assert (Harmed : alarmAt s <> None)
      by (unfold fire in Efire; destruct (alarmAt s); [discriminate | discriminate]).
    destruct (fire_tick s Harmed) as (s1' & E1 & Hk & Hst & _).
    rewrite Efire in E1. injection E1 as <-.
    destruct (IH s1 s' H) as [IHk IHs]. split; [lia|]. intros _.
    destruct n as [|n]; [|apply IHs; lia].
    injection H as <-. rewrite Hst, Hk. reflexivity.
Qed.

(** Once the threshold has been reached no timer fires until a request
    arrives; a request resets the counter field and arms the alarm. *)
Lemma quiet_until_next_request s req :
  alarmAt s = None ->
  fire env s = None
  /\ keptAliveInSeconds (snd (fetch env req s)) = 0%Z
  /\ alarmAt (snd (fetch env req s)) <> None.
Proof.
  intros Hnone. split; [unfold fire; rewrite Hnone; reflexivity|].
  unfold fetch. destruct (handleRequest env req (world s)) as [resp w'].
  unfold ensureAlarmIsSet. cbn [alarmAt snd]. rewrite Hnone.
  unfold setAlarm. cbn [world]. rewrite setAlarm_accepted. cbn [snd keptAliveInSeconds alarmAt].
  split; [reflexivity | discriminate].
Qed.

End IdleLifecycle.

(** C1, where it fails.  A request resets the counter field to 0 but
    leaves the stored counter as the last firing wrote it: the reset is
    not written back, and an object built again from the storage starts
    from the old value. *)
Theorem reset_is_not_written_back (env : Env) (req : Request) (s : State) :
  keptAliveInSeconds (snd (fetch env req s)) = 0%Z
  /\ storedKeptAlive (snd (fetch env req s)) = storedKeptAlive s
  /\ keptAliveInSeconds (reload (snd (fetch env req s)))
     = default 0%Z (storedKeptAlive s).
Proof.
  unfold fetch. destruct (handleRequest env req (world s)) as [resp w'].
  unfold ensureAlarmIsSet, setAlarm. cbn [snd alarmAt world].
  destruct (alarmAt s); [repeat split|].
  destruct (setAlarmOk env (now w')); repeat split.
Qed.

(** After three firings the storage holds 30; a request then resets the
    field, the storage still holds 30, and the reloaded object counts on
    from 30; without a reload the next firing takes the stored counter
    from 30 to 10. *)
Example stale_counter_after_request :
  let fired := fireTimes freshPages 3 armedState in
  let served := option_map (fun s => snd (fetch freshPages
                                            (getRequest (js "https://example.com/page")
                                                        false false false) s)) fired in
  option_map storedKeptAlive fired = Some (Some 30%Z)
  /\ option_map keptAliveInSeconds served = Some 0%Z
  /\ option_map storedKeptAlive served = Some (Some 30%Z)
  /\ option_map (fun s => keptAliveInSeconds (reload s)) served = Some 30%Z
  /\ option_map storedKeptAlive (served ≫= fire freshPages) = Some (Some 10%Z).
Proof. cbv zeta. repeat split; vm_compute; reflexivity. Qed.

(** ** Forum listing strategy *)

Lemma hasErrorIndicators_markers md :
  hasErrorIndicators md = true
  <-> exists marker, In marker errorMarkers /\ exists a b, md = a ++ marker ++ b.
Proof.
  unfold hasErrorIndicators. rewrite !orb_true_iff, !includes_true. split.
  - intros [[[[[H|H]|H]|H]|H]|H]; eexists; (split; [|exact H]); cbn; tauto.
  - intros (marker & Hin & H). cbn in Hin.
    destruct Hin as [<-|[<-|[<-|[<-|[<-|[<-|[]]]]]]]; tauto.
Qed.

Lemma includes_concat (l : list (list N)) x sub :
  In x l -> JS.includes x sub = true -> JS.includes (concat l) sub = true.
Proof.
  induction l as [|y l IH]; intros Hin Hx; [contradiction|].
  cbn [concat]. destruct Hin as [-> | Hin].
  - apply includes_app_l. exact Hx.
  - apply includes_app_r. exact (IH Hin Hx).
Qed.

(** Whatever a title contains is contained in the markdown of the
    listing. *)
Lemma formatRedditData_includes_title data subreddit url p sub :
  In (Some p) (l_children data) ->
  JS.includes (p_title p) sub = true ->
  JS.includes (formatRedditData data subreddit url) sub = true.
Proof.
  intros Hin Hsub. unfold formatRedditData.
  destruct (l_children data) as [|c children]; [contradiction|].
  apply includes_app_r, includes_app_r, includes_app_r, includes_app_l.
  apply (includes_concat _ (formatPost p)).
  - exact (in_map (fun c => match c with Some p => formatPost p | None => [] end)
                  _ (Some p) Hin).
  - unfold formatPost. apply includes_app_r, includes_app_l.
    unfold orElse. destruct (p_title p) as [|t title] eqn:Et; [|exact Hsub].
    destruct sub; [reflexivity | discriminate].
Qed.

Lemma fetchRedditAuthenticatedApi_total env subreddit url cacheKey w :
  exists authMd w',
    fetchRedditAuthenticatedApi env subreddit url cacheKey w = (Ok authMd, w').
Proof. apply tryCatch_total. Qed.

(** C10. When the subreddit is recognised, the cache misses, and the
    public API gives a rate-limit signal or no content, [handleRedditURL]
    returns the markdown of the authenticated API with the error flag set
    exactly when that markdown contains one of the six markers; so the
    listing of a successful fetch is flagged as an error as soon as one of
    its titles contains the word [limit] or [Error]. *)
Theorem reddit_error_flag_by_substring
        (env : Env) (url : list N) (w w2 : World) (m : Re.result)
        (publicApiResult : list N * bool) :
  Re.exec subredditPattern url = Some m ->
  truthyOpt (fst <$> cache w !! (js "Reddit:" ++ url)) = false ->
  fetchRedditPublicApi env (default [] (Re.group m 1)) url (js "Reddit:" ++ url)
                       (emit (EvCacheGet (js "Reddit:" ++ url)) w)
  = (Ok publicApiResult, w2) ->
  snd publicApiResult = true \/ fst publicApiResult = [] ->
  exists authResultMd w',
    fetchRedditAuthenticatedApi env (default [] (Re.group m 1)) url (js "Reddit:" ++ url) w2
    = (Ok authResultMd, w')
    /\ handleRedditURL env url w
       = (Ok (mkResult url authResultMd (Some (hasErrorIndicators authResultMd)) None None),
          w')
    /\ (hasErrorIndicators authResultMd = true
        <-> exists marker, In marker errorMarkers
                           /\ exists a b, authResultMd = a ++ marker ++ b)
    /\ (forall data p,
          authResultMd = formatRedditData data (default [] (Re.group m 1)) url ->
          In (Some p) (l_children data) ->
          JS.includes (p_title p) (js "limit") = true
          \/ JS.includes (p_title p) (js "Error") = true ->
          hasErrorIndicators authResultMd = true).
Proof.
  intros Hmatch Hmiss Hpublic Hfallback.
  destruct (fetchRedditAuthenticatedApi_total env (default [] (Re.group m 1)) url
              (js "Reddit:" ++ url) w2) as (authResultMd & w' & Hauth).
  exists authResultMd, w'. split; [exact Hauth|]. split; [|split].
  - unfold handleRedditURL, tryCatch. rewrite Hmatch. unfold bind at 1, cacheGet.
    rewrite Hmiss. unfold bind at 1. rewrite Hpublic. unfold afterPublicApi.
    assert (Hno : negb (snd publicApiResult) && truthy (fst publicApiResult) = false)
      by (destruct Hfallback as [-> | ->]; [reflexivity | apply andb_false_r]).
    rewrite Hno. unfold bind. rewrite Hauth. reflexivity.
  - apply hasErrorIndicators_markers.
  - intros data p -> Hin Htitle. unfold hasErrorIndicators.
    destruct Htitle as [H|H];
      rewrite (formatRedditData_includes_title data _ url p _ Hin H);
      rewrite ?orb_true_r; reflexivity.
Qed.

(** With the public API rate limited and the authenticated API answering
    a listing about a speed limit, the listing comes back flagged as an
    error. *)
Lemma reddit_error_flag_by_substring_witness :
  exists md w',
    handleRedditURL (redditEnv speedLimitListing) (js "https://www.reddit.com/r/cycling")
                    emptyWorld
    = (Ok (mkResult (js "https://www.reddit.com/r/cycling") md (Some true) None None), w')
    /\ md = formatRedditData speedLimitListing (js "cycling")
                             (js "https://www.reddit.com/r/cycling").
Proof.
  destruct (reddit_error_flag_by_substring (redditEnv speedLimitListing)
              (js "https://www.reddit.com/r/cycling") emptyWorld
              (emit (EvHttp (js "https://www.reddit.com/r/cycling/hot.json?limit=5"))
                    (emit (EvCacheGet (js "Reddit:https://www.reddit.com/r/cycling"))
                          emptyWorld))
              (Re.mkResult (js "reddit.com/r/cycling") [(1%nat, js "cycling")])
              ([], true))
    as (md & w' & Hauth & Hret & _ & Hflag);
    [vm_compute; reflexivity | vm_compute; reflexivity | vm_compute; reflexivity
    | left; reflexivity |].
  assert (Hmd : md = formatRedditData speedLimitListing (js "cycling")
                                      (js "https://www.reddit.com/r/cycling")).
  { vm_compute in Hauth. injection Hauth as <- _. vm_compute. reflexivity. }
  exists md, w'. split; [|exact Hmd].
  rewrite Hret. rewrite (Hflag speedLimitListing _ Hmd (or_introl eq_refl)).
  - reflexivity.
  - left. vm_compute. reflexivity.
Defined.

(** ** Crawl aggregator *)

(** The text of a crawl whose first result is the seed: the document of
    the seed, and, when there is a result for another target, the marker
    and one section per such result that is no error. *)
Lemma combinedDocument_shape baseUrl main rest :
  r_url main = baseUrl ->
  combinedDocument baseUrl (main :: rest)
  = Some (r_md main
          ++ match List.filter (isSubpageOf baseUrl) rest with
             | [] => []
             | subs =>
                 relatedSubpages
                 ++ concat (List.map (fun subpage =>
                                        if negb (isError subpage)
                                        then subpageSection subpage else [])
                                     subs)
             end).
Proof.
  intros Hmain.
  assert (Hseed : isSubpageOf baseUrl main = false)
    by (unfold isSubpageOf; rewrite Hmain, js_eqb_refl; reflexivity).
  unfold combinedDocument. cbn [List.find List.filter].
  rewrite Hseed, Hmain, js_eqb_refl. unfold relatedSubpages.
  destruct (List.filter (isSubpageOf baseUrl) rest); reflexivity.
Qed.

(** With the seed as the only crawled item nothing is appended; with a
    result for any other target the marker is there. *)
Lemma marker_only_with_subpages baseUrl main rest :
  r_url main = baseUrl ->
  (List.filter (isSubpageOf baseUrl) rest = [] ->
   combinedDocument baseUrl (main :: rest) = Some (r_md main))
  /\ (List.filter (isSubpageOf baseUrl) rest <> [] ->
      exists doc, combinedDocument baseUrl (main :: rest) = Some doc
                  /\ JS.includes doc (js "## Related Subpages") = true).
Proof.
  intros Hmain. rewrite (combinedDocument_shape baseUrl main rest Hmain). split.
  - intros ->. rewrite app_nil_r. reflexivity.
  - intros Hsubs. eexists. split; [reflexivity|].
    destruct (List.filter (isSubpageOf baseUrl) rest) as [|sub subs]; [contradiction|].
    apply includes_app_r, includes_app_l. reflexivity.
Qed.

(** A subpage with one headed section: its heading is the title of the
    subsection and is taken out of the embedded text. *)
Example crawl_text_of_plain_subpage :
  resp_body (fst (crawlSubpages (siteWith plainBody) anonymous seedUrl false warmWorld))
  = BodyText
      (convertToMagiFormat (magiClock (siteWith plainBody) 0) seedUrl seedBody
       ++ relatedSubpages
       ++ js "\n\n### First [URL](https://example.com/a)\n\n"
       ++ JS.trim (JS.replaceFirst
                     (convertToMagiFormat (magiClock (siteWith plainBody) 1)
                                          subpageUrl plainBody)
                     (js "# First") [])).
Proof. vm_compute. reflexivity. Qed.

(** C7, at the failing input.  The subpage has a horizontal rule between
    its first section, headed [First], and a second one, headed [Second]:
    the subsection of the combined document is titled [Second] and embeds
    the second section only, where the first top-level heading of the
    subpage is [First]. *)
Theorem crawl_text_titles_subpage_after_rule :
  extractTitle ruledBody = js "First"
  /\ resp_body (fst (crawlSubpages (siteWith ruledBody) anonymous seedUrl false warmWorld))
     = BodyText
         (convertToMagiFormat (magiClock (siteWith ruledBody) 0) seedUrl seedBody
          ++ relatedSubpages
          ++ js "\n\n### Second [URL](https://example.com/a)\n\nMore.").
Proof. split; vm_compute; reflexivity. Qed.
